(** * WebScraper: the extraction-and-ingestion pipeline of [articles/utils.py]

    A shallow embedding of [_normalize_text], [title_finder], [body_finder],
    [published_at_finder], [save_article] and [scraper_run], together with
    the [Article] model of [articles/models.py].

    Python values are embedded as follows.
    - [str] is [string]; every character is read as a code point below 256.
    - A parsed document (BeautifulSoup) is a rose tree of [node]s.
    - Exceptions are values of [exn]; a call that may raise returns
      [result A].  Only subclasses of [Exception] are modelled.
    - Everything the program obtains from the outside (network, browser,
      clock and time zone, date parsing libraries, database faults) is a
      field of the record [World]. *)

From Stdlib Require Import Ascii String ZArith Lia.
From stdpp Require Import base option list strings gmap fin_maps.

Set Warnings "-register-all,-abstract-large-number".
Local Open Scope Z_scope.

(** ** Exceptions and fallible calls *)

(** The exception classes the handlers of [utils.py] tell apart, and the
    ones the modelled library calls raise. *)
Inductive exn :=
| RequestException      (* requests.exceptions.RequestException and subclasses *)
| ValueError
| AttributeError
| IntegrityError        (* django.db.IntegrityError *)
| DatabaseError         (* any other django.db error *)
| WebDriverException    (* selenium.common.exceptions.WebDriverException *)
| OSError
| OtherException.

Global Instance exn_eq_dec : EqDecision exn.
Proof. solve_decision. Defined.

Inductive result (A : Type) :=
| Ok (a : A)
| Raise (e : exn).
Arguments Ok {A} a.
Arguments Raise {A} e.

Definition bind_result {A B} (r : result A) (k : A → result B) : result B :=
  match r with
  | Ok a => k a
  | Raise e => Raise e
  end.

Notation "'let*' x ':=' r 'in' k" := (bind_result r (fun x => k))
  (at level 10, x name, r at level 100, k at level 200, only parsing).

(** [isinstance(e, requests.exceptions.RequestException)] *)
Definition is_RequestException (e : exn) : bool :=
  match e with RequestException => true | _ => false end.

(** ** Python strings *)

Module Py.

(** [str.isspace] on a single code point below 256. *)
Definition isspace (c : ascii) : bool :=
  let n := nat_of_ascii c in
  ((9 <=? n)%nat && (n <=? 13)%nat)
  || ((28 <=? n)%nat && (n <=? 32)%nat)
  || (n =? 133)%nat || (n =? 160)%nat.

Fixpoint lstrip (s : string) : string :=
  match s with
  | String c s' => if isspace c then lstrip s' else s
  | EmptyString => EmptyString
  end.

Fixpoint rstrip (s : string) : string :=
  match s with
  | EmptyString => EmptyString
  | String c s' =>
      match rstrip s' with
      | EmptyString => if isspace c then EmptyString else String c EmptyString
      | r => String c r
      end
  end.

(** [s.strip()] *)
Definition strip (s : string) : string := rstrip (lstrip s).

(** Truthiness of a [str]. *)
Definition truthy (s : string) : bool :=
  match s with EmptyString => false | _ => true end.

(** [s.endswith(suffix)] *)
Definition endswith (s suffix : string) : bool :=
  let n := String.length s in
  let k := String.length suffix in
  (k <=? n)%nat && String.eqb (substring (n - k) k s) suffix.

(** [s.startswith(prefix)] *)
Definition startswith (s pre : string) : bool := String.prefix pre s.

(** [s.removesuffix(suffix)] (Python 3.9 and later) *)
Definition removesuffix (s suffix : string) : string :=
  if truthy suffix && endswith s suffix
  then substring 0 (String.length s - String.length suffix) s
  else s.

(** [s[:-1]] *)
Definition drop_last (s : string) : string :=
  substring 0 (String.length s - 1) s.

(** [re.findall(r"\S+", s)]: the maximal runs of characters that are not
    white space. *)
Fixpoint split_ws_go (cur : string) (s : string) : list string :=
  match s with
  | EmptyString =>
      if truthy cur then [String.rev cur] else []
  | String c s' =>
      if isspace c
      then (if truthy cur then [String.rev cur] else []) ++ split_ws_go "" s'
      else split_ws_go (String c cur) s'
  end.
Definition split_ws (s : string) : list string := split_ws_go "" s.

(** [x or y] on optional strings: [None] and [''] are both falsy. *)
Definition or_else (x : option string) (y : string) : string :=
  match x with
  | Some s => if truthy s then s else y
  | None => y
  end.

(** [text or None] *)
Definition or_None (s : string) : option string :=
  if truthy s then Some s else None.

(** The value of an optional string when it is truthy. *)
Definition if_truthy (x : option string) : option string := x ≫= or_None.

End Py.

(** ** Parsed documents *)

(** A page element of BeautifulSoup.  [NavigableString] is a string of
    the text of the page, [Comment] a comment, [Script] the string that
    the parser puts in a [script] or [style] element (the classes
    [Script] and [Stylesheet]): [get_text] of the elements around it
    leaves a comment and a script string out, and [str] writes the first
    between its brackets and the second as it is.  A string of another
    class that [get_text] leaves out (a declaration, the text of a
    [template]) is a [Comment] as far as [get_text] goes; [str] is
    modelled for comments only among these.  [attrs] are the items
    of the dictionary [tag.attrs], every key once, in the order of the
    page.  The value of every attribute is kept as the string the page
    has; the [class] attribute is split on white space when a filter
    looks at it, as the parser does when it builds the tree.  The
    elements that the program looks for ([h1], [title], [meta], [div],
    [article], [time], [a], [p]) are no [script] or [style] elements, and
    [get_text] is modelled for such elements only. *)
Inductive node :=
| NavigableString (s : string)
| Comment (s : string)
| Script (s : string)
| Tag (name : string) (attrs : list (string * string)) (contents : list node).

(** A [BeautifulSoup] object: the top-level contents of the document. *)
Definition soup := list node.

Section node_induction.
Variable P : node → Prop.
Hypothesis Hstr : ∀ s, P (NavigableString s).
Hypothesis Hcom : ∀ s, P (Comment s).
Hypothesis Hscr : ∀ s, P (Script s).
Hypothesis Htag : ∀ name attrs cs, Forall P cs → P (Tag name attrs cs).

Fixpoint node_forall_ind (n : node) : P n :=
  match n with
  | NavigableString s => Hstr s
  | Comment s => Hcom s
  | Script s => Hscr s
  | Tag name attrs cs =>
      Htag name attrs cs
        ((fix go (l : list node) : Forall P l :=
            match l with
            | [] => Forall_nil_2 P
            | c :: l' => Forall_cons_2 P c l' (node_forall_ind c) (go l')
            end) cs)
  end.
End node_induction.

Module Bs4.

(** [tag.get(key)] *)
Fixpoint assoc (key : string) (attrs : list (string * string)) : option string :=
  match attrs with
  | [] => None
  | (k, v) :: rest => if String.eqb k key then Some v else assoc key rest
  end.

Definition get (key : string) (n : node) : option string :=
  match n with
  | Tag _ attrs _ => assoc key attrs
  | _ => None
  end.

(** The elements below a node in document order (the node itself left
    out), as [descendants] yields them. *)
Fixpoint descendants (n : node) : list node :=
  match n with
  | Tag _ _ cs =>
      (fix go (l : list node) : list node :=
         match l with
         | [] => []
         | c :: l' => c :: descendants c ++ go l'
         end) cs
  | _ => []
  end.

Fixpoint descendants_of (cs : list node) : list node :=
  match cs with
  | [] => []
  | c :: l' => c :: descendants c ++ descendants_of l'
  end.

(** [tag.get_text(strip=b)]: the strings below the tag, each stripped
    when [b] holds, joined with the empty separator. *)
Fixpoint get_text (b : bool) (n : node) : string :=
  match n with
  | NavigableString s => if b then Py.strip s else s
  | Comment _ => ""
  | Script _ => ""
  | Tag _ _ cs =>
      (fix go (l : list node) : string :=
         match l with
         | [] => ""
         | c :: l' => get_text b c +:+ go l'
         end) cs
  end.

(** Filters of [find] and [find_all]. *)
Definition named (name : string) (n : node) : bool :=
  match n with
  | Tag nm _ _ => String.eqb nm name
  | _ => false
  end.

(** [attrs={'class': c}]: some class of the tag is [c]. *)
Definition has_class (c : string) (n : node) : bool :=
  match get "class" n with
  | Some v => existsb (String.eqb c) (Py.split_ws v)
  | None => false
  end.

(** [property=v], or any other attribute that is not multi-valued. *)
Definition attr_is (key v : string) (n : node) : bool :=
  match get key n with
  | Some v' => String.eqb v' v
  | None => false
  end.

Definition find_all (p : node → bool) (doc : soup) : list node :=
  filter (fun n => Is_true (p n)) (descendants_of doc).

Definition find (p : node → bool) (doc : soup) : option node :=
  head (find_all p doc).

(** [soup.find(name, attrs)] with a dictionary of attribute filters. *)
Definition selects (name : string) (attrs : list (string * string)) (n : node) : bool :=
  named name n
  && forallb (fun kv => if String.eqb kv.1 "class" then has_class kv.2 n
                        else attr_is kv.1 kv.2 n) attrs.

(** [href=re.compile(pattern)] for a pattern [^prefix]: the attribute is
    there and starts with [prefix]. *)
Definition attr_startswith (key pre : string) (n : node) : bool :=
  match get key n with
  | Some v => Py.startswith v pre
  | None => false
  end.

(** The part of a list after its first element that satisfies [p]. *)
Fixpoint after_first (p : node → bool) (l : list node) : list node :=
  match l with
  | [] => []
  | n :: l' => if p n then l' else after_first p l'
  end.

(** [soup.find(p).find_next(q)]: the first element after the first match
    of [p], in document order, that satisfies [q]. *)
Definition find_next (p q : node → bool) (doc : soup) : option node :=
  head (filter (fun n => Is_true (q n)) (after_first p (descendants_of doc))).

(** The tree once [decompose] has been called on every element that
    satisfies [p]. *)
Fixpoint decompose (p : node → bool) (n : node) : node :=
  match n with
  | Tag name attrs cs =>
      Tag name attrs
        ((fix go (l : list node) : list node :=
            match l with
            | [] => []
            | c :: l' => if p c then go l' else decompose p c :: go l'
            end) cs)
  | _ => n
  end.

Fixpoint decompose_all (p : node → bool) (cs : soup) : soup :=
  match cs with
  | [] => []
  | c :: l' => if p c then decompose_all p l' else decompose p c :: decompose_all p l'
  end.

(** [str(tag)]: the markup of an element, as the minimal formatter
    writes it: [&], [<] and [>] replaced in text and attribute values,
    the attributes in the order of their names, the string of a script
    or style element as it is. *)
Definition dquote : ascii := ascii_of_nat 34.

Definition substitute_char (c : ascii) : string :=
  if Ascii.eqb c "&" then "&amp;"
  else if Ascii.eqb c "<" then "&lt;"
  else if Ascii.eqb c ">" then "&gt;"
  else String c "".

Fixpoint substitute_xml (s : string) : string :=
  match s with
  | EmptyString => ""
  | String c s' => substitute_char c +:+ substitute_xml s'
  end.

Fixpoint contains_char (c : ascii) (s : string) : bool :=
  match s with
  | EmptyString => false
  | String a s' => Ascii.eqb a c || contains_char c s'
  end.

Fixpoint replace_dquote (s : string) : string :=
  match s with
  | EmptyString => ""
  | String a s' =>
      (if Ascii.eqb a dquote then "&quot;" else String a "") +:+ replace_dquote s'
  end.

Definition quoted_attribute_value (v : string) : string :=
  if contains_char dquote v then
    if contains_char "'" v
    then String dquote (replace_dquote v) +:+ String dquote ""
    else "'" +:+ v +:+ "'"
  else String dquote v +:+ String dquote "".

Fixpoint join (sep : string) (l : list string) : string :=
  match l with
  | [] => ""
  | [x] => x
  | x :: l' => x +:+ sep +:+ join sep l'
  end.

(** [sorted(tag.attrs.items())]: the formatter writes the attributes in
    the order of their names. *)
Fixpoint insert_sorted (kv : string * string) (l : list (string * string))
  : list (string * string) :=
  match l with
  | [] => [kv]
  | kv' :: l' =>
      if String.leb kv.1 kv'.1 then kv :: l else kv' :: insert_sorted kv l'
  end.

Definition sorted (attrs : list (string * string)) : list (string * string) :=
  foldr insert_sorted [] attrs.

Fixpoint attrs_str (attrs : list (string * string)) : string :=
  match attrs with
  | [] => ""
  | (k, v) :: rest =>
      let v := if String.eqb k "class" then join " " (Py.split_ws v) else v in
      " " +:+ k +:+ "=" +:+ quoted_attribute_value (substitute_xml v) +:+ attrs_str rest
  end.

(** The tags that the tree builder of [html.parser] writes as
    [<name/>] when they have no contents. *)
Definition empty_element_tags : list string :=
  [ "area"; "base"; "br"; "col"; "embed"; "hr"; "img"; "input"; "keygen";
    "link"; "menuitem"; "meta"; "param"; "source"; "track"; "wbr";
    "basefont"; "bgsound"; "command"; "frame"; "image"; "isindex";
    "nextid"; "spacer" ].

Fixpoint str (n : node) : string :=
  match n with
  | NavigableString s => substitute_xml s
  | Comment s => "<!--" +:+ s +:+ "-->"
  | Script s => s
  | Tag name attrs cs =>
      match cs with
      | [] =>
          if existsb (String.eqb name) empty_element_tags
          then "<" +:+ name +:+ attrs_str (sorted attrs) +:+ "/>"
          else "<" +:+ name +:+ attrs_str (sorted attrs) +:+ "></" +:+ name +:+ ">"
      | _ =>
          "<" +:+ name +:+ attrs_str (sorted attrs) +:+ ">"
          +:+ (fix go (l : list node) : string :=
                 match l with
                 | [] => ""
                 | c :: l' => str c +:+ go l'
                 end) cs
          +:+ "</" +:+ name +:+ ">"
      end
  end.

End Bs4.

(** ** Text Normalizer *)

(** The values a candidate field may hold: [None], a [str], or an object
    with a [get_text] method. *)
Inductive pyval :=
| PNone
| PStr (s : string)
| PTag (n : node).

(** [_normalize_text] *)
Definition _normalize_text (value : pyval) : option string :=
  match value with
  | PNone => None
  | PTag n => Py.or_None (Bs4.get_text true n)
  | PStr s => Py.or_None (Py.strip s)
  end.

(** ** Title Extractor *)

(** The filter of [soup.find('meta', property='og:title')]. *)
Definition is_og_title (n : node) : bool :=
  Bs4.named "meta" n && Bs4.attr_is "property" "og:title" n.

(** [title_finder] *)
Definition title_finder (doc : option soup) : option string :=
  match doc with
  | None => None
  | Some doc =>
      match Bs4.find (Bs4.named "h1") doc with
      | Some h1 => _normalize_text (PTag h1)
      | None =>
          let og := Bs4.find is_og_title doc in
          match Py.if_truthy (og ≫= Bs4.get "content") with
          | Some content => Some (Py.strip content)
          | None =>
              match Bs4.find (Bs4.named "title") doc with
              | Some title_tag => _normalize_text (PTag title_tag)
              | None => None
              end
          end
      end
  end.

(** ** Body Extractor *)

Definition selectors : list (string * list (string * string)) :=
  [ ("div", [("class", "table-post")]);
    ("article", []);
    ("div", [("class", "article-body")]);
    ("div", [("class", "post-content")]) ].

(** A div with the class [ad-container]. *)
Definition is_ad_div : node → bool := Bs4.selects "div" [("class", "ad-container")].

(** The loop over the selectors: the first selector that finds a tag
    returns it. *)
Fixpoint first_selected (sels : list (string * list (string * string))) (doc : soup)
  : option node :=
  match sels with
  | [] => None
  | (name, attrs) :: rest =>
      match Bs4.find (Bs4.selects name attrs) doc with
      | Some tag => Some tag
      | None => first_selected rest doc
      end
  end.

(** [max(best :: l, key=key)]: a later element replaces the current one
    only when its key is greater. *)
Fixpoint py_max {A} (key : A → nat) (best : A) (l : list A) : A :=
  match l with
  | [] => best
  | x :: l' => if (key best <? key x)%nat then py_max key x l' else py_max key best l'
  end.

(** [len(d.get_text(strip=True) or '')] *)
Definition text_len (d : node) : nat := String.length (Bs4.get_text true d).

(** [body_finder].  The document is changed in place: the first component
    is the document as the call leaves it. *)
Definition body_finder (doc : option soup) : option soup * option node :=
  match doc with
  | None => (None, None)
  | Some doc =>
      let doc := Bs4.decompose_all is_ad_div doc in
      (Some doc,
       match first_selected selectors doc with
       | Some tag => Some tag
       | None =>
           match Bs4.find_all (Bs4.named "div") doc with
           | [] => None
           | d :: divs =>
               let best := py_max text_len d divs in
               if (100 <? text_len best)%nat then Some best else None
           end
       end)
  end.

(** ** Dates *)

(** A [datetime.datetime] value. *)
Record datetime := {
  year : nat; month : nat; day : nat;
  hour : nat; minute : nat; second : nat
}.

Definition digit (n : nat) : ascii := ascii_of_nat (48 + n mod 10).

(** The decimal digits of a number, none of them left out. *)
Fixpoint decimal_go (fuel n : nat) (acc : string) : string :=
  match fuel with
  | O => acc
  | S fuel' =>
      if (n <? 10)%nat then String (digit n) acc
      else decimal_go fuel' (n / 10) (String (digit n) acc)
  end.

Definition decimal (n : nat) : string := decimal_go (S n) n "".

(** A field of two digits ([%d], [%m], [%H], [%M], [%S]): a zero before
    a number below ten. *)
Definition pad2 (n : nat) : string :=
  if (n <? 10)%nat then String "0" (decimal n) else decimal n.

(** [d.strftime('%d.%m.%Y %H:%M:%S')], as the C library of Linux writes
    it: [%Y] is the year in decimal with no padding, so that a year
    below 1000 has fewer than four digits. *)
Definition strftime (d : datetime) : string :=
  pad2 (day d) +:+ "." +:+ pad2 (month d) +:+ "." +:+ decimal (year d) +:+ " "
  +:+ pad2 (hour d) +:+ ":" +:+ pad2 (minute d) +:+ ":" +:+ pad2 (second d).

(** ** The outside world *)

Record World := {
  (** [sys.version_info >= (3, 9)] *)
  py39 : bool;
  (** whether [import dateparser] succeeds *)
  dateparser_available : bool;
  (** [dateparser.parse(raw, languages=['pl'])] *)
  dateparser_parse : string → result (option datetime);
  (** [datetime.datetime.strptime(s, '%d.%m.%Y %H:%M:%S')] *)
  strptime : string → result datetime;
  (** [timezone.make_aware(d, timezone.get_current_timezone())] *)
  make_aware : datetime → result datetime;
  (** [str(uuid.uuid4())] *)
  uuid4 : string;
  (** [webdriver_builder()] *)
  webdriver_builder : result unit;
  (** [driver.quit()] *)
  driver_quit : result unit;
  (** [json.load(open(websites_path))] for a file that holds a list of
      strings, or the exception of the reading; a file with entries of
      other types is the matter of [scraper_run_entries] *)
  read_links : result (list string);
  (** [urlparse(link)]: the scheme and the netloc *)
  urlparse : string → result (string * string);
  (** [requests.get(link, ...).status_code] at iteration [idx] *)
  requests_get : nat → string → result Z;
  (** [driver.get(link)], [driver.page_source] and its parse at iteration
      [idx] *)
  render : nat → string → result soup;
  (** a fault of the database while [exists()] runs at iteration [idx] *)
  db_read_fault : nat → option exn;
  (** a fault of the database, other than a violated constraint, while
      [update_or_create] runs for a URL *)
  db_write_fault : string → option exn
}.

(** ** Published-Date Extractor *)

Section published_at.
Variable w : World.

(** The [<time>] element. *)
Definition time_strategy (doc : soup) : result (option string) :=
  match Bs4.find (Bs4.named "time") doc with
  | Some time_tag =>
      let raw := Py.or_else (Bs4.get "datetime" time_tag) (Bs4.get_text true time_tag) in
      if Py.truthy raw then
        let* parsed := dateparser_parse w raw in
        Ok (strftime <$> parsed)
      else Ok None
  | None => Ok None
  end.

Definition is_author_link (n : node) : bool :=
  Bs4.named "a" n && Bs4.attr_startswith "href" "/autorzy/" n.

(** The paragraph after the link to the author. *)
Definition author_strategy (doc : soup) : result (option string) :=
  match Bs4.find is_author_link doc with
  | Some author_link =>
      let* p := match Bs4.find_next is_author_link (Bs4.named "p") doc with
                | Some p => Ok p
                | None => Raise AttributeError
                end in
      let possible := Bs4.get_text false p in
      if Py.truthy possible then
        let* parsed := dateparser_parse w possible in
        Ok (strftime <$> parsed)
      else Ok None
  | None => Ok None
  end.

(** [published_at_finder] *)
Definition published_at_finder (doc : option soup) : result (option string) :=
  match doc with
  | None => Ok None
  | Some doc =>
      if negb (dateparser_available w) then Ok None
      else
        let* found := time_strategy doc in
        match found with
        | Some s => Ok (Some s)
        | None =>
            match author_strategy doc with
            | Ok (Some s) => Ok (Some s)
            | Ok None => Ok None
            | Raise _ => Ok None
            end
        end
  end.
End published_at.

(** ** The Record Store *)

(** The model [Article] of [models.py].  A Python object may hold [None]
    in [published_at]; the column itself is declared [null=False]. *)
Record Article := {
  title : string;
  body : string;
  plain_body : string;
  published_at : option datetime;
  url : string
}.

(** [null=False] on [Article.published_at]. *)
Definition published_at_null : bool := false.

(** The table of articles: [url] is unique, so the rows are a map from
    the URL.  The primary key [id] plays no part in the pipeline and is
    left out. *)
Abbreviation Table := (gmap string Article).

(** The [defaults] dictionary of [save_article]; the key
    ['published_at'] is there only when [d_published_at] is [Some]. *)
Record Defaults := {
  d_title : string;
  d_body : string;
  d_plain_body : string;
  d_published_at : option datetime
}.

(** [Article.objects.filter(url=link).exists()] *)
Definition exists_url (db : Table) (link : string) : bool :=
  match db !! link with
  | Some _ => true
  | None => false
  end.

(** What the database does with a row that is written: a [NULL] in a
    column that is not nullable is refused. *)
Definition write_row (db : Table) (obj : Article) : result Table :=
  match published_at obj with
  | None => if published_at_null then Ok (<[url obj := obj]> db) else Raise IntegrityError
  | Some _ => Ok (<[url obj := obj]> db)
  end.

(** [Article.objects.update_or_create(url=url, defaults=defaults)]: the
    row with this URL gets the values of [defaults] and is saved; when
    there is none, a row is made from the URL and [defaults] and
    inserted.  The third component is [created]. *)
Definition update_or_create (w : World) (db : Table) (url_ : string) (defaults : Defaults)
  : result (Table * Article * bool) :=
  match db_write_fault w url_ with
  | Some e => Raise e
  | None =>
      match db !! url_ with
      | Some obj =>
          let obj := {| title := d_title defaults;
                        body := d_body defaults;
                        plain_body := d_plain_body defaults;
                        published_at := match d_published_at defaults with
                                        | Some d => Some d
                                        | None => published_at obj
                                        end;
                        url := url_ |} in
          let* db := write_row db obj in
          Ok (db, obj, false)
      | None =>
          let obj := {| title := d_title defaults;
                        body := d_body defaults;
                        plain_body := d_plain_body defaults;
                        published_at := d_published_at defaults;
                        url := url_ |} in
          let* db := write_row db obj in
          Ok (db, obj, true)
      end
  end.

(** ** Normalize and Persist *)

(** The value under ['published_at'] in the article dictionary. *)
Inductive pydate :=
| DNone
| DStr (s : string)
| DDatetime (d : datetime).

(** The article dictionary that [scraper_run] builds and [save_article]
    reads with [article.get]. *)
Record ArticleDict := {
  a_title : pyval;
  a_body : pyval;
  a_plain_body : pyval;
  a_published_at : pydate;
  a_url : option string
}.

Definition sentinel : string := "Not Found".

(** Lines 143 to 153 of [save_article]: the text fields and the key. *)
Definition normalized_title (article : ArticleDict) : string :=
  Py.or_else (_normalize_text (a_title article)) sentinel.

Definition normalized_body (article : ArticleDict) : string * string :=
  match a_body article with
  | PTag n =>
      (Bs4.str n,
       Py.or_else (_normalize_text (PStr (Bs4.get_text true n))) sentinel)
  | body_val =>
      let body_html := Py.or_else (_normalize_text body_val) sentinel in
      (body_html,
       Py.or_else (_normalize_text (a_plain_body article))
         (if negb (String.eqb body_html sentinel) then body_html else sentinel))
  end.

Definition normalized_url (w : World) (article : ArticleDict) : string :=
  Py.or_else (a_url article) ("not-found-" +:+ uuid4 w).

(** Lines 155 to 164: the date, [None] when the value is falsy or does
    not parse. *)
Definition parsed_published_at (w : World) (article : ArticleDict) : option datetime :=
  match a_published_at article with
  | DNone => None
  | DDatetime d => Some d
  | DStr s =>
      if Py.truthy s then
        match strptime w s with
        | Ok d => Some d
        | Raise _ => None
        end
      else None
  end.

(** [save_article]: the table after the call, the object and [created]. *)
Definition save_article (w : World) (db : Table) (article : ArticleDict)
  : result (Table * Article * bool) :=
  let title_ := normalized_title article in
  let '(body_html, plain_body_) := normalized_body article in
  let url_ := normalized_url w article in
  let published := parsed_published_at w article in
  let* aware := match published with
                | Some d => let* d := make_aware w d in Ok (Some d)
                | None => Ok None
                end in
  let defaults := {| d_title := title_; d_body := body_html;
                     d_plain_body := plain_body_; d_published_at := aware |} in
  update_or_create w db url_ defaults.

(** ** Ingestion Pipeline *)

(** What a run does that can be seen from outside: the records it logs
    and the calls it makes to the network, the browser and the store. *)
Inductive event :=
| LogInitializing                              (* info: Initializing webdriver... *)
| LogSkipSaved (link : string)                 (* info: Skipping already-saved URL *)
| LogDbCheckFailed (e : exn)                   (* debug: Could not check DB for existing article *)
| LogInvalidUrl (link : string)                (* warning: Skipping invalid URL *)
| LogRequestError (link : string) (e : exn)    (* warning: Request error for ... *)
| LogBadStatus (status : Z) (link : string)    (* warning: Bad status ... for ... *)
| LogScraping (idx total : nat) (link : string) (skipped : Z)
                                               (* info: Scraping (i/n): ... | Skipped links: ... *)
| LogSaved (title_ url_ : string)              (* info: Saved new article *)
| LogUpdated (title_ url_ : string)            (* info: Updated article *)
| LogFailed (link : string) (e : exn)          (* exception: Failed to scrape ... *)
| LogQuitFailed (e : exn)                      (* debug: Error quitting webdriver *)
| CallRequestsGet (link : string)              (* requests.get(link, ...) *)
| CallDriverGet (link : string)                (* driver.get(link) *)
| CallSaveArticle (link : string)              (* save_article(article) *)
| CallDriverQuit.                              (* driver.quit() *)

Global Instance event_eq_dec : EqDecision event.
Proof. solve_decision. Defined.

(** The state that the loop of [scraper_run] carries. *)
Record RunState := {
  db : Table;
  skipped_cnt : Z;
  trace : list event
}.

Definition emit (e : event) (st : RunState) : RunState :=
  {| db := db st; skipped_cnt := skipped_cnt st; trace := trace st ++ [e] |}.

(** The unary plus of Python. *)
Definition uplus (z : Z) : Z := z.

(** [skipped_cnt =+ 1], that is [skipped_cnt = (+1)]. *)
Definition skip (st : RunState) : RunState :=
  {| db := db st; skipped_cnt := uplus 1; trace := trace st |}.

Definition set_db (t : Table) (st : RunState) : RunState :=
  {| db := t; skipped_cnt := skipped_cnt st; trace := trace st |}.

Definition bad_statuses : list Z := [404; 500; 408; 403].

(** [status in bad_statuses] *)
Definition is_bad_status (status : Z) : bool := existsb (Z.eqb status) bad_statuses.

Definition of_option (o : option string) : pyval :=
  match o with
  | Some s => PStr s
  | None => PNone
  end.

Section pipeline.
Variable w : World.

(** Lines 218 to 223: one trailing [/] is taken off. *)
Definition canonical (link : string) : string :=
  if Py.endswith link "/" then
    if py39 w then Py.removesuffix link "/" else Py.drop_last link
  else link.

(** Lines 255 to 265: the article dictionary of a parsed page.
    [body_finder] changes the document that [published_at_finder] then
    reads. *)
Definition extract (doc : soup) (link : string) : result ArticleDict :=
  let title_ := title_finder (Some doc) in
  let '(doc, body_) := body_finder (Some doc) in
  let* published := published_at_finder w doc in
  let plain_body_ :=
    match body_ with
    | Some tag => PStr (Bs4.get_text true tag)
    | None => of_option (_normalize_text PNone)
    end in
  Ok {| a_title := of_option title_;
        a_body := match body_ with Some tag => PTag tag | None => PNone end;
        a_plain_body := plain_body_;
        a_published_at := match published with Some s => DStr s | None => DNone end;
        a_url := Some link |}.

(** Lines 249 to 267, the body of the last [try]. *)
Definition scrape (idx : nat) (link : string) (st : RunState) : RunState * result unit :=
  let st := emit (CallDriverGet link) st in
  match render w idx link with
  | Raise e => (st, Raise e)
  | Ok doc =>
      match extract doc link with
      | Raise e => (st, Raise e)
      | Ok article =>
          let st := emit (CallSaveArticle link) st in
          match save_article w (db st) article with
          | Raise e => (st, Raise e)
          | Ok (t, obj, created) =>
              let st := set_db t st in
              (emit (if created : bool then LogSaved (title obj) (url obj)
                     else LogUpdated (title obj) (url obj)) st, Ok ())
          end
      end
  end.

(** Lines 232 to 237, the body of the second [try]: [Ok None] when the
    URL is refused and the loop goes on, [Ok (Some status)] when the
    probe has an answer. *)
Definition validate_and_probe (idx : nat) (link : string) (st : RunState)
  : RunState * result (option Z) :=
  match urlparse w link with
  | Raise e => (st, Raise e)
  | Ok (scheme, netloc) =>
      if negb ((String.eqb scheme "http" || String.eqb scheme "https")
               && Py.truthy netloc)
      then (skip (emit (LogInvalidUrl link) st), Ok None)
      else
        let st := emit (CallRequestsGet link) st in
        match requests_get w idx link with
        | Raise e => (st, Raise e)
        | Ok status => (st, Ok (Some status))
        end
  end.

(** Lines 231 to 270: everything after the check of the store.  The
    second component is the exception that leaves the loop, if any. *)
Definition fetch_and_save (total idx : nat) (link : string) (st : RunState)
  : RunState * option exn :=
  match validate_and_probe idx link st with
  | (st, Ok None) => (st, None)
  | (st, Raise e) =>
      if is_RequestException e
      then (skip (emit (LogRequestError link e) st), None)
      else (st, Some e)
  | (st, Ok (Some status)) =>
      if is_bad_status status
      then (skip (emit (LogBadStatus status link) st), None)
      else
        let st := emit (LogScraping idx total link (skipped_cnt st)) st in
        match scrape idx link st with
        | (st, Ok _) => (st, None)
        | (st, Raise e) => (emit (LogFailed link e) st, None)
        end
  end.

(** One turn of the loop, lines 218 to 270. *)
Definition iteration (total idx : nat) (link : string) (st : RunState)
  : RunState * option exn :=
  let link := canonical link in
  match db_read_fault w idx with
  | Some e => fetch_and_save total idx link (emit (LogDbCheckFailed e) st)
  | None =>
      if exists_url (db st) link
      then (skip (emit (LogSkipSaved link) st), None)
      else fetch_and_save total idx link st
  end.

(** [for idx, link in enumerate(list(links), start=idx)] *)
Fixpoint loop (total idx : nat) (links : list string) (st : RunState)
  : RunState * option exn :=
  match links with
  | [] => (st, None)
  | link :: rest =>
      match iteration total idx link st with
      | (st, None) => loop total (S idx) rest st
      | (st, Some e) => (st, Some e)
      end
  end.

(** [scraper_run], started on the table [t].  The second component is
    the exception the call ends with, if any. *)
Definition scraper_run (t : Table) : RunState * option exn :=
  let st := emit LogInitializing {| db := t; skipped_cnt := 0; trace := [] |} in
  match webdriver_builder w with
  | Raise e => (st, Some e)
  | Ok _ =>
      let '(st, err) :=
        match read_links w with
        | Raise e => (st, Some e)
        | Ok links => loop (length links) 1 links st
        end in
      let st := emit CallDriverQuit st in
      match driver_quit w with
      | Raise e => (emit (LogQuitFailed e) st, err)
      | Ok _ => (st, err)
      end
  end.
End pipeline.

(** ** A reference world

    Concrete stand-ins for the libraries, used where a statement is run on
    a concrete input.  Each follows the library on the inputs it is used
    on here and says so. *)

Module Reference.

Definition is_digit (c : ascii) : bool :=
  let n := nat_of_ascii c in (48 <=? n)%nat && (n <=? 57)%nat.

Definition is_alpha (c : ascii) : bool :=
  let n := nat_of_ascii c in
  ((65 <=? n)%nat && (n <=? 90)%nat) || ((97 <=? n)%nat && (n <=? 122)%nat).

Definition lower (c : ascii) : ascii :=
  let n := nat_of_ascii c in
  if (65 <=? n)%nat && (n <=? 90)%nat then ascii_of_nat (n + 32) else c.

(** The characters a scheme is made of: letters, digits, [+], [-], [.]. *)
Definition is_scheme_char (c : ascii) : bool :=
  is_alpha c || is_digit c || Ascii.eqb c "+" || Ascii.eqb c "-" || Ascii.eqb c ".".

Fixpoint string_forallb (p : ascii → bool) (s : string) : bool :=
  match s with
  | EmptyString => true
  | String c s' => p c && string_forallb p s'
  end.

Fixpoint string_map (f : ascii → ascii) (s : string) : string :=
  match s with
  | EmptyString => EmptyString
  | String c s' => String (f c) (string_map f s')
  end.

(** The text before and after the first character that satisfies [p];
    [None] when there is none. *)
Fixpoint split_at (p : ascii → bool) (s : string) : option (string * string) :=
  match s with
  | EmptyString => None
  | String c s' =>
      if p c then Some (EmptyString, s')
      else match split_at p s' with
           | Some (a, b) => Some (String c a, b)
           | None => None
           end
  end.

(** The text before the first character that satisfies [p]. *)
Fixpoint take_until (p : ascii → bool) (s : string) : string :=
  match s with
  | EmptyString => EmptyString
  | String c s' => if p c then EmptyString else String c (take_until p s')
  end.

(** [urllib.parse.urlparse(url)], its [scheme] and [netloc], for a URL
    of printable ASCII characters: the scheme is the text before the
    first colon when that text is a scheme name; the netloc is what
    follows [//] up to the first of [/], [?] and [#]; a netloc with one
    square bracket and not the other is refused with [ValueError]. *)
Definition py_urlparse (u : string) : result (string * string) :=
  let '(scheme, rest) :=
    match split_at (Ascii.eqb ":") u with
    | Some (String c pre, rest) =>
        if is_alpha c && string_forallb is_scheme_char pre
        then (string_map lower (String c pre), rest)
        else (EmptyString, u)
    | _ => (EmptyString, u)
    end in
  match rest with
  | String "/" (String "/" rest') =>
      let netloc :=
        take_until (fun c => Ascii.eqb c "/" || Ascii.eqb c "?" || Ascii.eqb c "#") rest' in
      let has_open := Bs4.contains_char "[" netloc in
      let has_close := Bs4.contains_char "]" netloc in
      if (has_open && negb has_close) || (has_close && negb has_open)
      then Raise ValueError
      else Ok (scheme, netloc)
  | _ => Ok (scheme, EmptyString)
  end.

Definition digit_val (c : ascii) : nat := nat_of_ascii c - 48.

Fixpoint digits_go (acc : nat) (s : string) : option nat :=
  match s with
  | EmptyString => Some acc
  | String c s' => if is_digit c then digits_go (10 * acc + digit_val c) s' else None
  end.

(** The number a non-empty string of digits writes. *)
Definition digits (s : string) : option nat :=
  match s with
  | EmptyString => None
  | _ => digits_go 0 s
  end.

Definition days_in_month (y m : nat) : nat :=
  match m with
  | 2 => if ((y mod 4 =? 0) && negb (y mod 100 =? 0) || (y mod 400 =? 0))%nat then 29 else 28
  | 4 | 6 | 9 | 11 => 30
  | _ => 31
  end%nat.

Definition valid_datetime (d : datetime) : bool :=
  ((1 <=? year d) && (year d <=? 9999) && (1 <=? month d) && (month d <=? 12)
   && (1 <=? day d) && (day d <=? days_in_month (year d) (month d))
   && (hour d <? 24) && (minute d <? 60) && (second d <? 60))%nat.

(** Six fields of fixed width with the separators given. *)
Definition fixed_fields (s : string) (w1 w2 w3 : nat) (s1 s2 s3 s4 s5 : string)
  : option (nat * nat * nat * nat * nat * nat) :=
  let p1 := w1 in
  let p2 := (p1 + 1 + w2)%nat in
  let p3 := (p2 + 1 + w3)%nat in
  if (String.length s =? p3 + 9)%nat
     && String.eqb (substring p1 1 s) s1 && String.eqb (substring p2 1 s) s2
     && String.eqb (substring p3 1 s) s3 && String.eqb (substring (p3 + 3) 1 s) s4
     && String.eqb (substring (p3 + 6) 1 s) s5
  then
    a ← digits (substring 0 w1 s);
    b ← digits (substring (p1 + 1) w2 s);
    c ← digits (substring (p2 + 1) w3 s);
    h ← digits (substring (p3 + 1) 2 s);
    m ← digits (substring (p3 + 4) 2 s);
    x ← digits (substring (p3 + 7) 2 s);
    Some (a, b, c, h, m, x)
  else None.

(** [datetime.strptime(s, '%d.%m.%Y %H:%M:%S')] on the strings of the
    width that [strftime] writes for a year from 1000 on, two digits a
    field and four for the year; on those it gives the date written, or
    [ValueError] when that is no date.  Other strings are refused. *)
Definition strptime_fixed (s : string) : result datetime :=
  match fixed_fields s 2 2 4 "." "." " " ":" ":" with
  | Some (d, mo, y, h, mi, x) =>
      let dt := {| year := y; month := mo; day := d; hour := h; minute := mi; second := x |} in
      if valid_datetime dt then Ok dt else Raise ValueError
  | None => Raise ValueError
  end.

(** [dateparser.parse(s, languages=['pl'])] on a date and time written
    as [YYYY-MM-DDTHH:MM:SS]; it finds no date in anything else. *)
Definition parse_iso (s : string) : result (option datetime) :=
  match fixed_fields s 4 2 2 "-" "-" "T" ":" ":" with
  | Some (y, mo, d, h, mi, x) =>
      let dt := {| year := y; month := mo; day := d; hour := h; minute := mi; second := x |} in
      if valid_datetime dt then Ok (Some dt) else Ok None
  | None => Ok None
  end.

(** A world where every library is there and the database has no
    fault: [links] is the list in the file, [status link] the answer
    of the probe and [page link] what the browser shows. *)
Definition world (links : list string) (status : string → result Z)
    (page : string → result soup) : World :=
  {| py39 := true;
     dateparser_available := true;
     dateparser_parse := parse_iso;
     strptime := strptime_fixed;
     make_aware := Ok;
     uuid4 := "1b4e28ba-2fa1-41d2-883f-0016d3cca427";
     webdriver_builder := Ok ();
     driver_quit := Ok ();
     read_links := Ok links;
     urlparse := py_urlparse;
     requests_get := fun _ link => status link;
     render := fun _ link => page link;
     db_read_fault := fun _ => None;
     db_write_fault := fun _ => None |}.

(** A world with nothing to read and nothing wrong. *)
Definition quiet : World := world [] (fun _ => Ok 200) (fun _ => Ok []).

End Reference.

(** ** The Title Extractor as the specification words it *)

(** The three strategies, each on its own. *)
Definition og_content (doc : soup) : option string :=
  Bs4.find is_og_title doc ≫= Bs4.get "content".

Definition h1_strategy (doc : soup) : option string :=
  h1 ← Bs4.find (Bs4.named "h1") doc; _normalize_text (PTag h1).

Definition og_strategy (doc : soup) : option string :=
  Py.strip <$> Py.if_truthy (og_content doc).

Definition title_strategy (doc : soup) : option string :=
  t ← Bs4.find (Bs4.named "title") doc; _normalize_text (PTag t).

(** The first result in a list of optional results. *)
Fixpoint first_success (l : list (option string)) : option string :=
  match l with
  | [] => None
  | Some s :: _ => Some s
  | None :: l' => first_success l'
  end.

(** "Tries the strategies in strict order, stopping at the first
    strategy that yields a non-absent result." *)
Definition spec_title_finder (doc : option soup) : option string :=
  match doc with
  | None => None
  | Some doc => first_success [h1_strategy doc; og_strategy doc; title_strategy doc]
  end.

(** [<h1><img src="logo.png"/></h1><title>B</title>] *)
Definition doc_logo_h1 : soup :=
  [ Tag "h1" [] [Tag "img" [("src", "logo.png")] []];
    Tag "title" [] [NavigableString "B"] ].

(** [<title>Foo</title>] *)
Definition doc_title_only : soup := [Tag "title" [] [NavigableString "Foo"]].

(** [<h1>A</h1><title>B</title>] *)
Definition doc_h1_and_title : soup :=
  [Tag "h1" [] [NavigableString "A"]; Tag "title" [] [NavigableString "B"]].

(** ** Pages for the Body Extractor *)

(** Neither the node nor anything below it is a div marked as an ad
    container. *)
Fixpoint ad_free (n : node) : bool :=
  negb (is_ad_div n)
  && match n with
     | Tag _ _ cs =>
         (fix go (l : list node) : bool :=
            match l with
            | [] => true
            | c :: l' => ad_free c && go l'
            end) cs
     | _ => true
     end.

(** ['x' * n] *)
Fixpoint times (c : ascii) (n : nat) : string :=
  match n with
  | O => EmptyString
  | S n' => String c (times c n')
  end.

(** Five divs without a class, the longest with [n] characters of text. *)
Definition doc_five_divs (n : nat) : soup :=
  [ Tag "div" [] [NavigableString "one"];
    Tag "div" [] [NavigableString " two "];
    Tag "div" [] [NavigableString (times "x" n)];
    Tag "div" [] [];
    Tag "div" [] [NavigableString "five"] ].

(** An ad container next to an article with 200 characters of text. *)
Definition doc_ad_and_article : soup :=
  [ Tag "div" [("class", "ad-container")] [NavigableString "Buy now"];
    Tag "article" [] [Tag "p" [] [NavigableString (times "y" 200)]] ].


(** [best] is the first element of [l] with the greatest key. *)
Definition first_greatest {A} (key : A → nat) (best : A) (l : list A) : Prop :=
  ∃ pre post, l = pre ++ best :: post
    ∧ Forall (fun x => (key x < key best)%nat) pre
    ∧ Forall (fun x => (key x ≤ key best)%nat) post.

(** ** Candidates and pages for the Persist step *)

(** The body of a candidate is nothing, a string or a tag, as
    [body_finder] returns it; never a bare string of the page. *)
Definition tag_or_text (v : pyval) : Prop :=
  match v with
  | PTag (Tag _ _ _) | PNone | PStr _ => True
  | PTag _ => False
  end.

(** A candidate with nothing found but the date. *)
Definition candidate_dated : ArticleDict :=
  {| a_title := PNone; a_body := PNone; a_plain_body := PNone;
     a_published_at := DStr "01.03.2024 10:00:00";
     a_url := Some "https://example.com/a" |}.

(** The record that [candidate_dated] becomes. *)
Definition record_not_found : Article :=
  {| title := "Not Found"; body := "Not Found"; plain_body := "Not Found";
     published_at := Some {| year := 2024; month := 3; day := 1;
                             hour := 10; minute := 0; second := 0 |};
     url := "https://example.com/a" |}.

(** A candidate whose date does not parse. *)
Definition candidate_bad_date : ArticleDict :=
  {| a_title := PStr "A"; a_body := PNone; a_plain_body := PNone;
     a_published_at := DStr "yesterday";
     a_url := Some "https://example.com/a" |}.

(** A world that serves [doc] at every URL of [links]. *)
Definition serving (links : list string) (doc : soup) : World :=
  Reference.world links (fun _ => Ok 200) (fun _ => Ok doc).

(** ** Worlds and pages for the pipeline *)

(** [w] with another date parser. *)
Definition with_dateparser (f : string → result (option datetime)) (w : World) : World :=
  {| py39 := py39 w;
     dateparser_available := dateparser_available w;
     dateparser_parse := f;
     strptime := strptime w;
     make_aware := make_aware w;
     uuid4 := uuid4 w;
     webdriver_builder := webdriver_builder w;
     driver_quit := driver_quit w;
     read_links := read_links w;
     urlparse := urlparse w;
     requests_get := requests_get w;
     render := render w;
     db_read_fault := db_read_fault w;
     db_write_fault := db_write_fault w |}.

(** [w] with faults of the database on reads. *)
Definition with_read_fault (f : nat → option exn) (w : World) : World :=
  {| py39 := py39 w;
     dateparser_available := dateparser_available w;
     dateparser_parse := dateparser_parse w;
     strptime := strptime w;
     make_aware := make_aware w;
     uuid4 := uuid4 w;
     webdriver_builder := webdriver_builder w;
     driver_quit := driver_quit w;
     read_links := read_links w;
     urlparse := urlparse w;
     requests_get := requests_get w;
     render := render w;
     db_read_fault := f;
     db_write_fault := db_write_fault w |}.

(** A page with a heading, an article and a date. *)
Definition doc_article : soup :=
  [ Tag "html" [] [
      Tag "head" [] [Tag "title" [] [NavigableString "Site"]];
      Tag "body" [] [
        Tag "h1" [] [NavigableString "Headline"];
        Tag "article" [] [Tag "p" [] [NavigableString "Text of the article."]];
        Tag "time" [("datetime", "2024-03-01T10:00:00")] [] ] ] ].

(** The record that [doc_article] becomes at [https://example.com/a]. *)
Definition record_article : Article :=
  {| title := "Headline";
     body := "<article><p>Text of the article.</p></article>";
     plain_body := "Text of the article.";
     published_at := Some {| year := 2024; month := 3; day := 1;
                             hour := 10; minute := 0; second := 0 |};
     url := "https://example.com/a" |}.

(** A record saved by an earlier run. *)
Definition record_old : Article :=
  {| title := "Old headline";
     body := "<article>Old</article>";
     plain_body := "Old";
     published_at := Some {| year := 2023; month := 12; day := 24;
                             hour := 8; minute := 30; second := 0 |};
     url := "https://example.com/a" |}.

(** The list of the end-to-end scenario of the specification. *)
Definition links_duplicate : list string :=
  ["https://example.com/a/"; "https://example.com/a"].

(** Two links, both answered with 404. *)
Definition world_404 : World :=
  Reference.world ["https://example.com/a"; "https://example.com/b"]
    (fun _ => Ok 404) (fun _ => Ok doc_article).

(** A list whose first entry has an unclosed bracket in its host. *)
Definition world_bracket : World :=
  serving ["http://["; "https://example.com/a"] doc_article.

(** A world whose database fails on every read. *)
Definition world_read_fault : World :=
  with_read_fault (fun _ => Some DatabaseError)
    (serving ["https://example.com/a"] doc_article).

(** A page whose [<time>] element holds text that is no timestamp. *)
Definition doc_time_text : soup :=
  [ Tag "h1" [] [NavigableString "Headline"];
    Tag "time" [] [NavigableString "jutro"] ].

(** A date parser that raises on the text [jutro] (as when the library
    cannot find the local time zone it needs for a relative date). *)
Definition parse_raising (s : string) : result (option datetime) :=
  if String.eqb s "jutro" then Raise ValueError else Reference.parse_iso s.

Definition world_parse_raising : World :=
  with_dateparser parse_raising (serving ["https://example.com/a"] doc_time_text).

(** The state a run starts its loop in. *)
Definition started (t : Table) : RunState :=
  emit LogInitializing {| db := t; skipped_cnt := 0; trace := [] |}.

(** What the [finally] clause adds to the trace. *)
Definition quit_events (w : World) : list event :=
  CallDriverQuit :: match driver_quit w with
                    | Raise e => [LogQuitFailed e]
                    | Ok _ => []
                    end.

(** The test of line 233 on a parsed URL. *)
Definition valid_url (parsed : string * string) : bool :=
  (String.eqb parsed.1 "http" || String.eqb parsed.1 "https") && Py.truthy parsed.2.

(** ** Cleaned text *)

(** A string with no white space at either end. *)
Definition stripped (s : string) : Prop := Py.lstrip s = s ∧ Py.rstrip s = s.

(** [<meta property="og:title" content="   ">] and a [<title>]. *)
Definition doc_blank_og : soup :=
  [ Tag "meta" [("property", "og:title"); ("content", "   ")] [];
    Tag "title" [] [NavigableString "Site"] ].

(** Some selector of the list accepts the element. *)
Definition selected (n : node) : bool :=
  existsb (fun s => Bs4.selects s.1 s.2 n) selectors.

(** The shape [DD.MM.YYYY HH:MM:SS]: nineteen characters, digits but
    for the five separators. *)
Definition dmy_hms_shape (s : string) : bool :=
  (String.length s =? 19)%nat
  && forallb (fun i => match String.get i s with
                       | Some c => Reference.is_digit c
                       | None => false
                       end)
       [0; 1; 3; 4; 6; 7; 8; 9; 11; 12; 14; 15; 17; 18]%nat
  && String.eqb (substring 2 1 s) "." && String.eqb (substring 5 1 s) "."
  && String.eqb (substring 10 1 s) " "
  && String.eqb (substring 13 1 s) ":" && String.eqb (substring 16 1 s) ":".

(** ** What a run does, seen from outside *)

(** The calls to the network, the browser and the store among the
    events of a run. *)
Definition is_call (e : event) : bool :=
  match e with
  | CallRequestsGet _ | CallDriverGet _ | CallSaveArticle _ | CallDriverQuit => true
  | _ => false
  end.

Definition calls (evs : list event) : list event := List.filter is_call evs.

(** The calls of a turn of the loop that goes all the way. *)
Definition steps (link : string) : list event :=
  [CallRequestsGet link; CallDriverGet link; CallSaveArticle link].

(** The calls [cs] are those of the links in their order: for each link
    a start of [steps], on its canonical form. *)
Fixpoint calls_follow (w : World) (links : list string) (cs : list event) : Prop :=
  match links with
  | [] => cs = []
  | link :: rest =>
      ∃ c1 c2, cs = c1 ++ c2
               ∧ c1 `prefix_of` steps (canonical w link)
               ∧ calls_follow w rest c2
  end.

(** What a turn does to the store: nothing, or the one write of
    [save_article] for the candidate of the page. *)
Definition turn_written (w : World) (idx : nat) (link : string) (t t' : Table) : Prop :=
  t' = t
  ∨ ∃ doc article obj created,
      render w idx link = Ok doc
      ∧ extract w doc link = Ok article
      ∧ save_article w t article = Ok (t', obj, created).

(** The exception that leaves a turn, if any, is no [RequestException]
    and was raised by [urlparse] or by [requests.get]. *)
Definition turn_raised (w : World) (idx : nat) (link : string) (err : option exn) : Prop :=
  match err with
  | None => True
  | Some e =>
      is_RequestException e = false
      ∧ (urlparse w link = Raise e ∨ requests_get w idx link = Raise e)
  end.

(** A row as [save_article] writes it under the key [k]. *)
Definition row_ok (k : string) (r : Article) : Prop :=
  url r = k ∧ title r ≠ "" ∧ body r ≠ "" ∧ plain_body r ≠ ""
  ∧ is_Some (published_at r).

(** A list with an entry that is no URL and one whose probe fails. *)
Definition world_mixed : World :=
  Reference.world ["ftp://example.com/x"; "not a url"; "https://down.example.com/";
                   "https://example.com/a"]
    (fun link => if String.eqb link "https://down.example.com"
                 then Raise RequestException else Ok 200)
    (fun _ => Ok doc_article).

(** The record [Saved new article] for the URL [u]. *)
Definition logs_new (u : string) (e : event) : bool :=
  match e with
  | LogSaved _ u' => String.eqb u' u
  | _ => false
  end.

(** How often [u] is logged as a new article. *)
Definition count_new (u : string) (evs : list event) : nat :=
  length (List.filter (logs_new u) evs).

(** A URL is logged as new at most once among [evs], and only when the
    store [t] did not hold it and the store [t'] does. *)
Definition news_ok (t t' : Table) (evs : list event) : Prop :=
  ∀ u, (count_new u evs ≤ 1)%nat
       ∧ ((0 < count_new u evs)%nat → t !! u = None ∧ is_Some (t' !! u)).

(** A page whose heading and date are inside an ad container. *)
Definition doc_ad_heading : soup :=
  [ Tag "div" [("class", "ad-container")]
      [ Tag "h1" [] [NavigableString "Sponsored"];
        Tag "time" [("datetime", "2024-03-01T10:00:00")] [] ];
    Tag "article" [] [NavigableString "Text"] ].

(** The list of two spellings of one address, on a page with a date,
    with a database that does not answer the existence checks. *)
Definition world_duplicate_read_fault : World :=
  with_read_fault (fun _ => Some DatabaseError)
    (serving links_duplicate doc_article).

(** ** A links file with entries of any type

    [read_links] gives the links as strings.  The file may hold a list
    of values of any JSON type: an entry is a string or a value of
    another type, on which [link.endswith] (line 218), which no [try]
    encloses, raises [AttributeError]. *)
Inductive entry :=
| EntryStr (link : string)
| EntryOther.

(** [for idx, link in enumerate(list(links), start=idx)] over such
    entries. *)
Fixpoint loop_entries (w : World) (total idx : nat) (entries : list entry)
    (st : RunState) : RunState * option exn :=
  match entries with
  | [] => (st, None)
  | EntryOther :: _ => (st, Some AttributeError)
  | EntryStr link :: rest =>
      match iteration w total idx link st with
      | (st, None) => loop_entries w total (S idx) rest st
      | (st, Some e) => (st, Some e)
      end
  end.

(** [scraper_run] when [open], [json.load] and [list(links)] give
    [file], started on the table [t]. *)
Definition scraper_run_entries (w : World) (file : result (list entry)) (t : Table)
  : RunState * option exn :=
  let st := emit LogInitializing {| db := t; skipped_cnt := 0; trace := [] |} in
  match webdriver_builder w with
  | Raise e => (st, Some e)
  | Ok _ =>
      let '(st, err) :=
        match file with
        | Raise e => (st, Some e)
        | Ok entries => loop_entries w (length entries) 1 entries st
        end in
      let st := emit CallDriverQuit st in
      match driver_quit w with
      | Raise e => (emit (LogQuitFailed e) st, err)
      | Ok _ => (st, err)
      end
  end.

(** The file of a world, whose entries are strings. *)
Definition entries_read (w : World) : result (list entry) :=
  match read_links w with
  | Ok links => Ok (EntryStr <$> links)
  | Raise e => Raise e
  end.

(** * Properties *)

(** ** URL hygiene *)

Section canonical_facts.

Lemma append_cons (c : ascii) (s t : string) :
  String c s +:+ t = String c (s +:+ t).
Proof. reflexivity. Qed.

Lemma append_nil (t : string) : "" +:+ t = t.
Proof. reflexivity. Qed.

Lemma length_append (s t : string) :
  String.length (s +:+ t) = (String.length s + String.length t)%nat.
Proof.
  induction s as [|c s IH]; [done|].
  rewrite append_cons. cbn [String.length]. by rewrite IH.
Qed.

Lemma substring_0_append (s t : string) :
  substring 0 (String.length s) (s +:+ t) = s.
Proof.
  induction s as [|c s IH].
  - rewrite append_nil. by destruct t.
  - rewrite append_cons. cbn [String.length substring]. by rewrite IH.
Qed.

(** The last character and what is before it. *)
Lemma substring_last (c : ascii) (s : string) (k : nat) :
  substring (String.length s) k (String c s)
  = match s with
    | EmptyString => substring 0 k (String c "")
    | String _ s' => substring (String.length s') k s
    end.
Proof. by destruct s. Qed.

(** The test of [endswith] on the one-character suffix, by recursion on
    the string. *)
Lemma endswith_slash_split (s : string) :
  Py.endswith s "/" = true → s = Py.drop_last s +:+ "/".
Proof.
  unfold Py.endswith, Py.drop_last. cbn [String.length].
  induction s as [|c s IH]; [done|].
  cbn [String.length]. rewrite Nat.sub_succ, Nat.sub_0_r.
  rewrite substring_last. destruct s as [|c' s'].
  - cbn. destruct (Ascii.eqb_spec c "/") as [->|]; [done|].
    by destruct (Ascii.eqb c "/").
  - cbn [String.length] in *.
    rewrite Nat.sub_succ, Nat.sub_0_r in IH. cbn [Nat.leb andb] in *.
    intros H. cbn [substring]. rewrite append_cons. f_equal. by apply IH.
Qed.

Lemma endswith_slash_append (t : string) : Py.endswith (t +:+ "/") "/" = true.
Proof.
  unfold Py.endswith. cbn [String.length].
  induction t as [|c t IH]; [done|].
  rewrite append_cons. cbn [String.length].
  rewrite Nat.sub_succ, Nat.sub_0_r, substring_last.
  destruct (t +:+ "/") as [|c' u] eqn:E.
  - by destruct t.
  - cbn [String.length Nat.leb andb] in *.
    by rewrite Nat.sub_succ, Nat.sub_0_r in IH.
Qed.

Lemma removesuffix_slash (s : string) :
  Py.endswith s "/" = true → Py.removesuffix s "/" = Py.drop_last s.
Proof. unfold Py.removesuffix, Py.drop_last. by intros ->. Qed.

Variable w : World.

(** Both branches of the version test take the same character off. *)
Lemma canonical_eq (link : string) :
  canonical w link = if Py.endswith link "/" then Py.drop_last link else link.
Proof.
  unfold canonical. destruct (Py.endswith link "/") eqn:E; [|done].
  destruct (py39 w); [|done]. by apply removesuffix_slash.
Qed.

Lemma canonical_append_slash (t : string) : canonical w (t +:+ "/") = t.
Proof.
  rewrite canonical_eq, endswith_slash_append.
  unfold Py.drop_last. rewrite length_append. cbn [String.length].
  replace (String.length t + 1 - 1)%nat with (String.length t) by lia.
  apply substring_0_append.
Qed.

Lemma canonical_fixed (v : string) :
  canonical w v = v ↔ Py.endswith v "/" = false.
Proof.
  rewrite canonical_eq. destruct (Py.endswith v "/") eqn:E; [|done].
  split; [|done]. intros Hfix. apply endswith_slash_split in E.
  rewrite Hfix in E. apply (f_equal String.length) in E.
  rewrite length_append in E. cbn in E. lia.
Qed.

End canonical_facts.

(** C4, as stated, fails: a URL that ends in two separators loses one at
    each pass, so a second pass changes the result of the first. *)
Lemma canonical_not_idempotent :
  canonical Reference.quiet (canonical Reference.quiet "https://example.com/a//")
  ≠ canonical Reference.quiet "https://example.com/a//".
Proof. by vm_compute. Qed.

(** C4, amended: a URL that ends in a separator loses exactly that one
    character and any other URL is kept; a second pass changes nothing
    exactly when the result of the first does not end in a separator. *)
Theorem canonical_strips_one_separator (w : World) (u : string) :
  canonical w (u +:+ "/") = u
  ∧ (Py.endswith u "/" = true →
     u = canonical w u +:+ "/"
     ∧ S (String.length (canonical w u)) = String.length u)
  ∧ (Py.endswith u "/" = false → canonical w u = u)
  ∧ (canonical w (canonical w u) = canonical w u
     ↔ Py.endswith (canonical w u) "/" = false).
Proof.
  split; [apply canonical_append_slash|]. split; [|split].
  - intros H. rewrite canonical_eq, H.
    pose proof (endswith_slash_split u H) as E. split; [done|].
    rewrite E at 2. rewrite length_append. cbn. lia.
  - intros H. by rewrite canonical_eq, H.
  - apply canonical_fixed.
Qed.

(** ** Title Extractor *)

(** C7, as stated, fails: a heading that holds no text (here a logo)
    ends the search with no title, although the [title] element, the
    third strategy, yields one. *)
Lemma title_finder_stops_at_textless_h1 :
  h1_strategy doc_logo_h1 = None
  ∧ title_strategy doc_logo_h1 = Some "B"
  ∧ spec_title_finder (Some doc_logo_h1) = Some "B"
  ∧ title_finder (Some doc_logo_h1) = None.
Proof. by vm_compute. Qed.

Lemma first_success_one (x : option string) : first_success [x] = x.
Proof. by destruct x. Qed.

Lemma title_finder_og (doc : soup) :
  title_finder (Some doc)
  = match Bs4.find (Bs4.named "h1") doc with
    | Some h1 => _normalize_text (PTag h1)
    | None => first_success [og_strategy doc; title_strategy doc]
    end.
Proof.
  unfold title_finder, og_strategy, title_strategy, og_content.
  destruct (Bs4.find (Bs4.named "h1") doc); [done|].
  destruct (Py.if_truthy _); [done|].
  destruct (Bs4.find (Bs4.named "title") doc); cbn; [|done].
  by destruct (Py.or_None _).
Qed.

(** C7, amended: the search stops at the first strategy whose element is
    on the page (an [h1]; an [og:title] meta element with a non-empty
    [content]; a [title] element) and returns what that strategy
    yields, which is absence for an [h1] or [title] without text.  It
    agrees with the strategy list of the specification on every page
    whose first [h1], if any, has text.  The two pages of the
    specification give ["Foo"] and ["A"]. *)
Theorem title_finder_first_present (doc : soup) :
  title_finder None = None
  ∧ (∀ h1, Bs4.find (Bs4.named "h1") doc = Some h1 →
       title_finder (Some doc) = _normalize_text (PTag h1))
  ∧ (Bs4.find (Bs4.named "h1") doc = None →
       (∀ content, og_content doc = Some content → content ≠ "" →
          title_finder (Some doc) = Some (Py.strip content))
       ∧ (og_content doc = None ∨ og_content doc = Some "" →
            (∀ t, Bs4.find (Bs4.named "title") doc = Some t →
               title_finder (Some doc) = _normalize_text (PTag t))
            ∧ (Bs4.find (Bs4.named "title") doc = None →
               title_finder (Some doc) = None)))
  ∧ ((∀ h1, Bs4.find (Bs4.named "h1") doc = Some h1 → Bs4.get_text true h1 ≠ "") →
       title_finder (Some doc) = spec_title_finder (Some doc))
  ∧ title_finder (Some doc_title_only) = Some "Foo"
  ∧ title_finder (Some doc_h1_and_title) = Some "A".
Proof.
  split; [done|]. split; [|split; [|split; [|split; by vm_compute]]].
  - intros h1 H. by rewrite title_finder_og, H.
  - intros H. rewrite title_finder_og, H. unfold og_strategy, title_strategy.
    split.
    + intros content -> Hne. by destruct content.
    + intros Hog.
      assert (Py.strip <$> Py.if_truthy (og_content doc) = None) as ->
        by (by destruct Hog as [-> | ->]).
      change (first_success [None; ?x]) with (first_success [x]).
      rewrite first_success_one. split.
      * by intros t ->.
      * by intros ->.
  - intros Htext. rewrite title_finder_og. unfold spec_title_finder, h1_strategy.
    destruct (Bs4.find (Bs4.named "h1") doc) as [h1|] eqn:E; [|done].
    specialize (Htext h1 eq_refl). cbn.
    unfold Py.or_None. by destruct (Bs4.get_text true h1).
Qed.

(** ** Body Extractor *)

Section tree_facts.

Lemma descendants_Tag name attrs cs :
  Bs4.descendants (Tag name attrs cs) = Bs4.descendants_of cs.
Proof. induction cs as [|c cs IH]; [done|]. cbn in *. by rewrite IH. Qed.

Lemma decompose_Tag p name attrs cs :
  Bs4.decompose p (Tag name attrs cs) = Tag name attrs (Bs4.decompose_all p cs).
Proof.
  cbn. f_equal. induction cs as [|c cs IH]; [done|].
  cbn. by rewrite IH.
Qed.

Lemma ad_free_Tag name attrs cs :
  ad_free (Tag name attrs cs)
  = negb (is_ad_div (Tag name attrs cs)) && forallb ad_free cs.
Proof.
  reflexivity.
Qed.

(** Whether an element is an ad container is a matter of its name and
    attributes, which [decompose] leaves alone. *)
Lemma is_ad_div_decompose p n : is_ad_div (Bs4.decompose p n) = is_ad_div n.
Proof. destruct n; [done..|]. by rewrite decompose_Tag. Qed.

Lemma decompose_ad_free n :
  is_ad_div n = false → ad_free (Bs4.decompose is_ad_div n) = true.
Proof.
  induction n as [s|s|s|name attrs cs IH] using node_forall_ind; intros Hn.
  - cbn [Bs4.decompose ad_free]. by rewrite Hn.
  - cbn [Bs4.decompose ad_free]. by rewrite Hn.
  - cbn [Bs4.decompose ad_free]. by rewrite Hn.
  - rewrite decompose_Tag, ad_free_Tag.
    change (is_ad_div (Tag name attrs ?x)) with (is_ad_div (Tag name attrs cs)).
    rewrite Hn. cbn [negb andb]. clear Hn.
    induction IH as [|c cs Hc _ IHcs]; [done|].
    cbn [Bs4.decompose_all]. destruct (is_ad_div c) eqn:E; [done|].
    cbn [forallb]. by rewrite Hc, IHcs.
Qed.

Lemma decompose_all_ad_free doc :
  forallb ad_free (Bs4.decompose_all is_ad_div doc) = true.
Proof.
  induction doc as [|c doc IH]; [done|].
  cbn [Bs4.decompose_all]. destruct (is_ad_div c) eqn:E; [done|].
  cbn [forallb]. by rewrite decompose_ad_free, IH.
Qed.

(** What is below an element free of ad containers is free of them. *)
Lemma ad_free_descendants n :
  ad_free n = true → Forall (fun d => ad_free d = true) (Bs4.descendants n).
Proof.
  induction n as [s|s|s|name attrs cs IH] using node_forall_ind; intros Hn;
    [by constructor..|].
  rewrite descendants_Tag. rewrite ad_free_Tag in Hn.
  apply andb_true_iff in Hn as [_ Hcs].
  induction IH as [|c cs Hc _ IHcs]; [constructor|].
  cbn [forallb] in Hcs. apply andb_true_iff in Hcs as [Hc' Hcs].
  cbn [Bs4.descendants_of]. constructor; [done|].
  apply Forall_app. split; auto.
Qed.

Lemma ad_free_descendants_of doc :
  forallb ad_free doc = true →
  Forall (fun d => ad_free d = true) (Bs4.descendants_of doc).
Proof.
  induction doc as [|c doc IH]; [constructor|].
  cbn [forallb]. intros [Hc Hdoc]%andb_true_iff.
  cbn [Bs4.descendants_of]. constructor; [done|].
  apply Forall_app. split; [by apply ad_free_descendants|auto].
Qed.

Lemma find_all_elem p doc x :
  x ∈ Bs4.find_all p doc ↔ p x = true ∧ x ∈ Bs4.descendants_of doc.
Proof.
  unfold Bs4.find_all. rewrite list_elem_of_filter.
  by rewrite Is_true_true.
Qed.

Lemma find_Some p doc x :
  Bs4.find p doc = Some x → p x = true ∧ x ∈ Bs4.descendants_of doc.
Proof.
  unfold Bs4.find. intros H. apply find_all_elem.
  destruct (Bs4.find_all p doc); simplify_eq/=. apply list_elem_of_here.
Qed.

End tree_facts.

Section body_finder_facts.

Lemma ad_free_not_ad n : ad_free n = true → is_ad_div n = false.
Proof.
  destruct n; cbn [ad_free]; intros [H _]%andb_true_iff;
    by apply negb_true_iff in H.
Qed.

Lemma py_max_first_greatest {A} (key : A → nat) (b : A) (l : list A) :
  first_greatest key (py_max key b l) (b :: l).
Proof.
  revert b. induction l as [|x l IH]; intros b; cbn [py_max].
  - exists [], []. by repeat constructor.
  - destruct (Nat.ltb_spec (key b) (key x)) as [Hlt|Hge].
    + destruct (IH x) as (pre & post & E & Hpre & Hpost).
      set (m := py_max key x l) in *. clearbody m.
      exists (b :: pre), post. rewrite E. split; [done|]. split; [|done].
      constructor; [|done].
      destruct pre as [|y pre]; simplify_eq/=; [done|].
      apply Forall_cons in Hpre as [Hy _]. lia.
    + destruct (IH b) as (pre & post & E & Hpre & Hpost).
      set (m := py_max key b l) in *. clearbody m.
      destruct pre as [|y pre]; simplify_eq/=.
      * exists [], (x :: post). split; [done|].
        split; [constructor|]. by constructor.
      * exists (y :: x :: pre), post. split; [done|]. split; [|done].
        apply Forall_cons in Hpre as [Hy Hpre].
        repeat constructor; [done| lia |done].
Qed.

Lemma first_greatest_elem {A} (key : A → nat) best (l : list A) :
  first_greatest key best l →
  best ∈ l ∧ ∀ x, x ∈ l → (key x ≤ key best)%nat.
Proof.
  intros (pre & post & -> & Hpre & Hpost). split.
  - apply elem_of_app. right. apply list_elem_of_here.
  - intros x [Hx|Hx]%elem_of_app.
    + rewrite Forall_forall in Hpre. specialize (Hpre x Hx). lia.
    + apply elem_of_cons in Hx as [->|Hx]; [done|].
      rewrite Forall_forall in Hpost. by apply Hpost.
Qed.



Lemma first_selected_Some sels doc tag :
  first_selected sels doc = Some tag →
  ∃ name attrs, (name, attrs) ∈ sels
    ∧ Bs4.find (Bs4.selects name attrs) doc = Some tag.
Proof.
  induction sels as [|[n a] sels IH]; cbn; [done|].
  destruct (Bs4.find (Bs4.selects n a) doc) as [t|] eqn:E.
  - intros [= ->]. exists n, a. split; [apply list_elem_of_here|done].
  - intros (n' & a' & Hin & H)%IH. exists n', a'.
    split; [by apply list_elem_of_further|done].
Qed.

Lemma body_finder_snd doc :
  (body_finder (Some doc)).2
  = let cleaned := Bs4.decompose_all is_ad_div doc in
    match first_selected selectors cleaned with
    | Some tag => Some tag
    | None =>
        match Bs4.find_all (Bs4.named "div") cleaned with
        | [] => None
        | d :: divs =>
            if (100 <? text_len (py_max text_len d divs))%nat
            then Some (py_max text_len d divs) else None
        end
    end.
Proof. reflexivity. Qed.


End body_finder_facts.


(** The pages of the specification: five divs whose longest text has 50
    characters give nothing; with 150 characters that div is returned;
    an article next to an ad container is returned and the ad is gone. *)
Example body_finder_five_divs_50 :
  (body_finder (Some (doc_five_divs 50))).2 = None.
Proof. by vm_compute. Qed.

Example body_finder_five_divs_150 :
  (body_finder (Some (doc_five_divs 150))).2
  = Some (Tag "div" [] [NavigableString (times "x" 150)]).
Proof. by vm_compute. Qed.

Example body_finder_ad_and_article :
  body_finder (Some doc_ad_and_article)
  = (Some [Tag "article" [] [Tag "p" [] [NavigableString (times "y" 200)]]],
     Some (Tag "article" [] [Tag "p" [] [NavigableString (times "y" 200)]])).
Proof. by vm_compute. Qed.

(** ** Normalize and Persist *)

Section persist_facts.
Variable w : World.

Lemma or_else_cases (x : option string) (y : string) :
  (x = Some (Py.or_else x y) ∧ Py.or_else x y ≠ "")
  ∨ Py.or_else x y = y.
Proof. destruct x as [[|c s]|]; cbn; auto. Qed.

Lemma or_else_nonempty (x : option string) (y : string) :
  y ≠ "" → Py.or_else x y ≠ "".
Proof. intros Hy. destruct (or_else_cases x y) as [[_ H]|H]; congruence. Qed.

Lemma sentinel_nonempty : sentinel ≠ "".
Proof. done. Qed.

Lemma str_Tag_nonempty name attrs cs : Bs4.str (Tag name attrs cs) ≠ "".
Proof.
  cbn [Bs4.str]. destruct cs; [destruct (existsb _ _)|]; discriminate.
Qed.

(** A write that goes through stores the object under its URL, with
    the text fields of [defaults]; the date is the one of [defaults],
    or the one the row had when [defaults] has none. *)
Lemma update_or_create_Ok t u d t' obj created :
  update_or_create w t u d = Ok (t', obj, created) →
  t' = <[u := obj]> t
  ∧ url obj = u
  ∧ title obj = d_title d
  ∧ body obj = d_body d
  ∧ plain_body obj = d_plain_body d
  ∧ created = bool_decide (t !! u = None)
  ∧ is_Some (published_at obj)
  ∧ published_at obj
    = match d_published_at d with
      | Some x => Some x
      | None => t !! u ≫= published_at
      end.
Proof.
  unfold update_or_create, write_row, published_at_null.
  destruct (db_write_fault w u); [done|].
  destruct (t !! u) as [old|] eqn:E; cbn.
  - destruct (d_published_at d) as [x|]; cbn.
    + intros [= <- <- <-]. cbn. repeat split; eauto.
    + destruct (published_at old) as [x|] eqn:Eo; cbn; [|done].
      intros [= <- <- <-]. cbn. repeat split; eauto.
  - destruct (d_published_at d) as [x|]; cbn; [|done].
    intros [= <- <- <-]. cbn. repeat split; eauto.
Qed.

(** A new row without a date is refused. *)
Lemma update_or_create_new_without_date t u d :
  db_write_fault w u = None → t !! u = None → d_published_at d = None →
  update_or_create w t u d = Raise IntegrityError.
Proof.
  intros Hf Ht Hd. unfold update_or_create, write_row, published_at_null.
  rewrite Hf, Ht. cbn. by rewrite Hd.
Qed.

(** [save_article] is [update_or_create] on the normalized fields. *)
Lemma save_article_eq t article :
  save_article w t article
  = match parsed_published_at w article with
    | Some d =>
        match make_aware w d with
        | Ok d' =>
            update_or_create w t (normalized_url w article)
              {| d_title := normalized_title article;
                 d_body := (normalized_body article).1;
                 d_plain_body := (normalized_body article).2;
                 d_published_at := Some d' |}
        | Raise e => Raise e
        end
    | None =>
        update_or_create w t (normalized_url w article)
          {| d_title := normalized_title article;
             d_body := (normalized_body article).1;
             d_plain_body := (normalized_body article).2;
             d_published_at := None |}
    end.
Proof.
  unfold save_article. destruct (normalized_body article) as [b p].
  destruct (parsed_published_at w article) as [d|]; cbn; [|done].
  by destruct (make_aware w d).
Qed.

Lemma parsed_published_at_failure article :
  a_published_at article = DNone
  ∨ (∃ s e, a_published_at article = DStr s ∧ strptime w s = Raise e) →
  parsed_published_at w article = None.
Proof.
  unfold parsed_published_at. intros [->|(s & e & -> & ->)]; [done|].
  by destruct (Py.truthy s).
Qed.

End persist_facts.

(** C1 on the code: when the date of a candidate is absent or does not
    parse, [save_article] gets no date; for a URL that has no record yet
    the store then refuses the new row, so nothing is created and the
    call raises; for a URL that has a record the update goes through and
    the record keeps the date it had. *)
Theorem save_article_without_date (w : World) (t : Table) (article : ArticleDict) :
  a_published_at article = DNone
  ∨ (∃ s e, a_published_at article = DStr s ∧ strptime w s = Raise e) →
  db_write_fault w (normalized_url w article) = None →
  parsed_published_at w article = None
  ∧ (t !! normalized_url w article = None →
       save_article w t article = Raise IntegrityError)
  ∧ (∀ old d, t !! normalized_url w article = Some old → published_at old = Some d →
       ∃ t' obj, save_article w t article = Ok (t', obj, false)
                 ∧ published_at obj = Some d).
Proof.
  intros Hdate%(parsed_published_at_failure w) Hfault.
  split; [done|]. rewrite save_article_eq, Hdate. split.
  - intros Ht. by apply update_or_create_new_without_date.
  - intros old d Ht Hold. unfold update_or_create, write_row.
    rewrite Hfault, Ht. cbn. rewrite Hold. cbn. eauto.
Qed.

Lemma save_article_without_date_witness :
  strptime (serving [] []) "yesterday" = Raise ValueError
  ∧ save_article (serving [] []) ∅ candidate_bad_date = Raise IntegrityError.
Proof.
  split; [by vm_compute|].
  apply (save_article_without_date (serving [] []) ∅ candidate_bad_date).
  - right. exists "yesterday", ValueError. split; reflexivity.
  - reflexivity.
  - reflexivity.
Defined.

(** The same in a run: a reachable page with a title and no date is not
    saved; the item is logged as failed. *)
Example run_page_without_date :
  let r := scraper_run (serving ["https://example.com/a"] doc_h1_and_title) ∅ in
  r.2 = None
  ∧ db r.1 = ∅
  ∧ trace r.1
    = [ LogInitializing;
        CallRequestsGet "https://example.com/a";
        LogScraping 1 1 "https://example.com/a" 0;
        CallDriverGet "https://example.com/a";
        CallSaveArticle "https://example.com/a";
        LogFailed "https://example.com/a" IntegrityError;
        CallDriverQuit ].
Proof. by vm_compute. Qed.

Section normalized_facts.

Lemma normalized_title_cases article :
  normalized_title article ≠ ""
  ∧ (normalized_title article = sentinel
     ∨ _normalize_text (a_title article) = Some (normalized_title article)).
Proof.
  unfold normalized_title. split; [apply or_else_nonempty, sentinel_nonempty|].
  destruct (or_else_cases (_normalize_text (a_title article)) sentinel) as [[H _]|H]; auto.
Qed.

(** Where the two body fields come from. *)
Lemma normalized_body_cases article :
  let '(body_html, plain) := normalized_body article in
  (body_html = sentinel
   ∨ (∃ n, a_body article = PTag n ∧ body_html = Bs4.str n)
   ∨ _normalize_text (a_body article) = Some body_html)
  ∧ (plain = sentinel
     ∨ (∃ n, a_body article = PTag n ∧ Py.or_None (Py.strip (Bs4.get_text true n)) = Some plain)
     ∨ _normalize_text (a_plain_body article) = Some plain
     ∨ plain = body_html)
  ∧ plain ≠ ""
  ∧ (tag_or_text (a_body article) → body_html ≠ "").
Proof.
  unfold normalized_body.
  destruct (a_body article) as [|s|n] eqn:Eb.
  - cbn [_normalize_text Py.or_else].
    change (negb (sentinel =? sentinel)%string) with false. cbn iota.
    split; [by left|]. split; [|split; [|done]].
    + destruct (or_else_cases (_normalize_text (a_plain_body article)) sentinel)
        as [[H _]|H]; auto.
    + apply or_else_nonempty, sentinel_nonempty.
  - set (body_html := Py.or_else (_normalize_text (PStr s)) sentinel).
    assert (body_html ≠ "") as Hne by apply or_else_nonempty, sentinel_nonempty.
    split; [|split; [|split; [|done]]].
    + destruct (or_else_cases (_normalize_text (PStr s)) sentinel) as [[H _]|H]; auto.
    + set (fallback := if negb _ then _ else _).
      destruct (or_else_cases (_normalize_text (a_plain_body article)) fallback)
        as [[H _]|H]; [auto|]. rewrite H. subst fallback.
      destruct (negb _); auto.
    + apply or_else_nonempty. by destruct (negb _).
  - split; [right; left; eauto|]. split; [|split].
    + destruct (or_else_cases (_normalize_text (PStr (Bs4.get_text true n))) sentinel)
        as [[H _]|H]; [|auto]. right. left. eauto.
    + apply or_else_nonempty, sentinel_nonempty.
    + destruct n; [done..|]. intros _. apply str_Tag_nonempty.
Qed.

Lemma normalized_url_cases w article :
  normalized_url w article ≠ ""
  ∧ (a_url article = Some (normalized_url w article)
     ∨ normalized_url w article = "not-found-" +:+ uuid4 w).
Proof.
  unfold normalized_url. split; [by apply or_else_nonempty|].
  destruct (or_else_cases (a_url article) ("not-found-" +:+ uuid4 w)) as [[H _]|H]; auto.
Qed.


(** What a call of [save_article] that returns has written. *)
Lemma save_article_Ok w t article t' obj created :
  save_article w t article = Ok (t', obj, created) →
  t' = <[normalized_url w article := obj]> t
  ∧ url obj = normalized_url w article
  ∧ title obj = normalized_title article
  ∧ body obj = (normalized_body article).1
  ∧ plain_body obj = (normalized_body article).2
  ∧ created = bool_decide (t !! normalized_url w article = None)
  ∧ is_Some (published_at obj).
Proof.
  rewrite save_article_eq.
  destruct (parsed_published_at w article) as [d|];
    [destruct (make_aware w d); [|done]|];
    intros H%update_or_create_Ok; cbn in H;
    destruct H as (? & ? & ? & ? & ? & ? & ? & _); auto 10.
Qed.

End normalized_facts.



(** ** Ingestion Pipeline *)

Section pipeline_facts.
Variable w : World.

(** The [finally] clause: the browser is quit whatever the loop did. *)
Lemma scraper_run_eq (t : Table) :
  scraper_run w t
  = match webdriver_builder w with
    | Raise e => (started t, Some e)
    | Ok _ =>
        let r := match read_links w with
                 | Raise e => (started t, Some e)
                 | Ok links => loop w (length links) 1 links (started t)
                 end in
        ({| db := db r.1; skipped_cnt := skipped_cnt r.1;
            trace := trace r.1 ++ quit_events w |}, r.2)
    end.
Proof.
  unfold scraper_run, quit_events. fold (started t).
  destruct (webdriver_builder w); [|done].
  destruct (match read_links w with Ok _ => _ | Raise _ => _ end) as [st err].
  destruct (driver_quit w); cbn; unfold emit; cbn; [done|].
  by rewrite <- app_assoc.
Qed.

(** The check of the store finds the URL: the turn is a skip and nothing
    else. *)
Lemma iteration_saved total idx link st :
  db_read_fault w idx = None →
  is_Some (db st !! canonical w link) →
  iteration w total idx link st
  = (skip (emit (LogSkipSaved (canonical w link)) st), None).
Proof.
  intros Hf [obj Hobj]. unfold iteration, exists_url. by rewrite Hf, Hobj.
Qed.

(** The check of the store finds nothing. *)
Lemma iteration_new total idx link st :
  db_read_fault w idx = None →
  db st !! canonical w link = None →
  iteration w total idx link st = fetch_and_save w total idx (canonical w link) st.
Proof. intros Hf Hnone. unfold iteration, exists_url. by rewrite Hf, Hnone. Qed.

(** The check of the store raises. *)
Lemma iteration_read_fault total idx link st e :
  db_read_fault w idx = Some e →
  iteration w total idx link st
  = fetch_and_save w total idx (canonical w link) (emit (LogDbCheckFailed e) st).
Proof. intros Hf. unfold iteration. by rewrite Hf. Qed.

(** [urlparse] raises something that is no [RequestException]: the
    exception leaves the loop. *)
Lemma fetch_and_save_urlparse_raises total idx link st e :
  urlparse w link = Raise e → is_RequestException e = false →
  fetch_and_save w total idx link st = (st, Some e).
Proof.
  intros Hp He. unfold fetch_and_save, validate_and_probe. by rewrite Hp, He.
Qed.

(** A bad status: the page is not rendered. *)
Lemma fetch_and_save_bad_status total idx link st parsed status :
  urlparse w link = Ok parsed → valid_url parsed = true →
  requests_get w idx link = Ok status → is_bad_status status = true →
  fetch_and_save w total idx link st
  = (skip (emit (LogBadStatus status link) (emit (CallRequestsGet link) st)), None).
Proof.
  intros Hp Hv Hr Hs. unfold fetch_and_save, validate_and_probe.
  rewrite Hp. destruct parsed as [scheme netloc].
  cbv [valid_url fst snd] in Hv. rewrite Hv, Hr.
  cbn -[is_bad_status skip emit]. by rewrite Hs.
Qed.

(** A good status and a page that is saved. *)
Lemma fetch_and_save_saved total idx link st parsed status doc article t' obj created :
  urlparse w link = Ok parsed → valid_url parsed = true →
  requests_get w idx link = Ok status → is_bad_status status = false →
  render w idx link = Ok doc → extract w doc link = Ok article →
  save_article w (db st) article = Ok (t', obj, created) →
  fetch_and_save w total idx link st
  = ({| db := t'; skipped_cnt := skipped_cnt st;
        trace := trace st ++
          [ CallRequestsGet link;
            LogScraping idx total link (skipped_cnt st);
            CallDriverGet link;
            CallSaveArticle link;
            if created then LogSaved (title obj) (url obj)
            else LogUpdated (title obj) (url obj) ] |}, None).
Proof.
  intros Hp Hv Hr Hs Hd He Hsave. unfold fetch_and_save, validate_and_probe.
  rewrite Hp. destruct parsed as [scheme netloc].
  cbv [valid_url fst snd] in Hv. rewrite Hv, Hr.
  cbn -[is_bad_status skip emit scrape]. rewrite Hs.
  unfold scrape. rewrite Hd, He. cbn -[save_article]. rewrite Hsave.
  unfold emit, set_db. cbn. rewrite <- !app_assoc. cbn. by destruct created.
Qed.

(** The counter after a turn is the counter before it, or one. *)
Lemma scrape_skipped_cnt idx link st :
  skipped_cnt (scrape w idx link st).1 = skipped_cnt st.
Proof.
  unfold scrape. destruct (render w idx link); [|done].
  destruct (extract w a link); [|done].
  destruct (save_article w _ _) as [[[t obj] created]|]; [|done].
  by destruct created.
Qed.

Lemma fetch_and_save_skipped_cnt total idx link st :
  skipped_cnt (fetch_and_save w total idx link st).1 = skipped_cnt st
  ∨ skipped_cnt (fetch_and_save w total idx link st).1 = 1.
Proof.
  unfold fetch_and_save, validate_and_probe.
  destruct (urlparse w link) as [[scheme netloc]|e].
  - destruct (negb _); [by right|].
    destruct (requests_get w idx link) as [status|e].
    + destruct (is_bad_status status); [by right|].
      match goal with |- context [scrape w idx link ?s] =>
        pose proof (scrape_skipped_cnt idx link s) as H;
        destruct (scrape w idx link s) as [st' [u|e]] end; by left.
    + destruct (is_RequestException e); [by right|by left].
  - destruct (is_RequestException e); [by right|by left].
Qed.

Lemma iteration_skipped_cnt total idx link st :
  skipped_cnt (iteration w total idx link st).1 = skipped_cnt st
  ∨ skipped_cnt (iteration w total idx link st).1 = 1.
Proof.
  unfold iteration. destruct (db_read_fault w idx).
  - apply (fetch_and_save_skipped_cnt total idx _ (emit _ st)).
  - destruct (exists_url _ _); [by right|]. apply fetch_and_save_skipped_cnt.
Qed.

Lemma loop_skipped_cnt total idx links st :
  skipped_cnt (loop w total idx links st).1 = skipped_cnt st
  ∨ skipped_cnt (loop w total idx links st).1 = 1.
Proof.
  revert idx st. induction links as [|link rest IH]; intros idx st; [by left|].
  cbn [loop]. pose proof (iteration_skipped_cnt total idx link st) as Hit.
  destruct (iteration w total idx link st) as [st' [e|]]; cbn [fst] in *; [done|].
  destruct (IH (S idx) st') as [H|H]; [|by right].
  rewrite H. done.
Qed.

End pipeline_facts.

Section extract_facts.
Variable w : World.

Lemma named_Tag name n :
  Bs4.named name n = true → ∃ attrs cs, n = Tag name attrs cs.
Proof.
  destruct n as [| | |nm attrs cs]; cbn; [done..|].
  intros ->%String.eqb_eq. eauto.
Qed.

Lemma selects_named name attrs n : Bs4.selects name attrs n = true → Bs4.named name n = true.
Proof. unfold Bs4.selects. by intros [? _]%andb_true_iff. Qed.

(** [body_finder] returns tags only. *)
Lemma body_finder_Tag doc b :
  (body_finder (Some doc)).2 = Some b → ∃ name attrs cs, b = Tag name attrs cs.
Proof.
  rewrite body_finder_snd. cbn zeta.
  set (cleaned := Bs4.decompose_all is_ad_div doc).
  destruct (first_selected selectors cleaned) as [tag|] eqn:E.
  - intros [= <-]. apply first_selected_Some in E as (n & a & _ & H).
    apply find_Some in H as [H _]. apply selects_named, named_Tag in H.
    destruct H as (? & ? & ->). eauto.
  - destruct (Bs4.find_all (Bs4.named "div") cleaned) as [|d divs] eqn:Ed; [done|].
    destruct (100 <? _)%nat; [|done]. intros [= <-].
    pose proof (py_max_first_greatest text_len d divs) as [Hin _]%first_greatest_elem.
    rewrite <- Ed in Hin. apply find_all_elem in Hin as [Hin _].
    apply named_Tag in Hin as (? & ? & ->). eauto.
Qed.

(** The candidate that the loop builds has the link as its URL and a
    tag or nothing as its body. *)
Lemma extract_Ok doc link article :
  extract w doc link = Ok article →
  a_url article = Some link ∧ tag_or_text (a_body article).
Proof.
  unfold extract. pose proof (body_finder_Tag doc) as Htag.
  destruct (body_finder (Some doc)) as [doc' body_]. cbn [snd] in Htag.
  destruct (published_at_finder w doc'); [|done].
  intros [= <-]. cbn. split; [done|].
  destruct body_ as [b|]; [|done].
  by destruct (Htag b eq_refl) as (? & ? & ? & ->).
Qed.

Lemma normalized_url_Some article link :
  a_url article = Some link → link ≠ "" → normalized_url w article = link.
Proof. unfold normalized_url. intros -> Hne. by destruct link. Qed.

End extract_facts.

Lemma canonical_example_slash (w : World) :
  canonical w "https://example.com/a/" = "https://example.com/a".
Proof. by rewrite canonical_eq. Qed.

Lemma canonical_example (w : World) :
  canonical w "https://example.com/a" = "https://example.com/a".
Proof. by rewrite canonical_eq. Qed.

(** C3 on the code: [skipped_cnt =+ 1] assigns one, so after any run the
    counter is zero or one, however many URLs were skipped; with two
    links that both answer 404, both are skipped without a render and
    the counter ends at one. *)
Theorem skipped_cnt_is_reset :
  (∀ (w : World) (t : Table),
     skipped_cnt (scraper_run w t).1 = 0 ∨ skipped_cnt (scraper_run w t).1 = 1)
  ∧ (let r := scraper_run world_404 ∅ in
     r.2 = None
     ∧ trace r.1
       = [ LogInitializing;
           CallRequestsGet "https://example.com/a";
           LogBadStatus 404 "https://example.com/a";
           CallRequestsGet "https://example.com/b";
           LogBadStatus 404 "https://example.com/b";
           CallDriverQuit ]
     ∧ skipped_cnt r.1 = 1).
Proof.
  split; [|by vm_compute].
  intros w t. rewrite scraper_run_eq.
  destruct (webdriver_builder w); [|by left].
  destruct (read_links w) as [links|e]; [|by left].
  cbn [fst skipped_cnt].
  destruct (loop_skipped_cnt w (length links) 1 links (started t)) as [H|H];
    rewrite H; auto.
Qed.

(** C2 on the code: when [urlparse] raises for a link that the store
    does not hold, and the exception is no [RequestException], the run
    ends with that exception although the browser was there: the links
    after it are never looked at. *)
Theorem unparsable_url_aborts_run (w : World) (t : Table) (link : string)
    (rest : list string) (e : exn) :
  webdriver_builder w = Ok () →
  read_links w = Ok (link :: rest) →
  db_read_fault w 1 = None →
  t !! canonical w link = None →
  urlparse w (canonical w link) = Raise e →
  is_RequestException e = false →
  (scraper_run w t).2 = Some e
  ∧ db (scraper_run w t).1 = t
  ∧ trace (scraper_run w t).1 = LogInitializing :: quit_events w.
Proof.
  intros Hwd Hlinks Hfault Hnew Hparse He.
  rewrite scraper_run_eq, Hwd, Hlinks. cbn [loop].
  rewrite iteration_new by done.
  by rewrite (fetch_and_save_urlparse_raises w _ _ _ _ e Hparse He).
Qed.

Lemma unparsable_url_aborts_run_witness :
  Reference.py_urlparse "http://[" = Raise ValueError
  ∧ (scraper_run world_bracket ∅).2 = Some ValueError
  ∧ db (scraper_run world_bracket ∅).1 = ∅
  ∧ trace (scraper_run world_bracket ∅).1 = [LogInitializing; CallDriverQuit].
Proof.
  split; [reflexivity|].
  apply (unparsable_url_aborts_run world_bracket ∅ "http://[" ["https://example.com/a"]);
    reflexivity.
Defined.

(** When neither [urlparse] nor [requests.get] raises anything but a
    [RequestException], no exception leaves the loop. *)
Lemma loop_completes (w : World) (total idx : nat) (links : list string) (st : RunState) :
  (∀ l e, urlparse w l = Raise e → is_RequestException e = true) →
  (∀ i l e, requests_get w i l = Raise e → is_RequestException e = true) →
  (loop w total idx links st).2 = None.
Proof.
  intros Hparse Hget. revert idx st.
  induction links as [|link rest IH]; intros idx st; [done|].
  cbn [loop].
  assert (∀ l s, (fetch_and_save w total idx l s).2 = None) as Hfs.
  { intros l s. unfold fetch_and_save, validate_and_probe.
    destruct (urlparse w l) as [[scheme netloc]|e] eqn:Ep.
    - destruct (negb _); [done|].
      destruct (requests_get w idx l) as [status|e] eqn:Eg.
      + destruct (is_bad_status status); [done|].
        by destruct (scrape w idx l _) as [st' [u|e]].
      + by rewrite (Hget _ _ _ Eg).
    - by rewrite (Hparse _ _ Ep). }
  assert ((iteration w total idx link st).2 = None) as Hit.
  { unfold iteration. destruct (db_read_fault w idx); [apply Hfs|].
    destruct (exists_url _ _); [done|apply Hfs]. }
  destruct (iteration w total idx link st) as [st' [e|]]; [done|]. apply IH.
Qed.

(** C5, as stated, fails.  On the list
    [["https://example.com/a/"; "https://example.com/a"]] and a store
    that holds ["https://example.com/a"], when the database does not
    answer the existence checks, neither link is skipped: each is
    probed, rendered and saved again.  And on a page without a date the
    same list, run on the empty store, leaves no record at all: both
    links are probed and rendered, and [save_article] fails on each. *)
Lemma saved_url_fetched_again :
  (let t : Table := {["https://example.com/a" := record_old]} in
   let r := scraper_run world_duplicate_read_fault t in
   t !! canonical world_duplicate_read_fault "https://example.com/a/" = Some record_old
   ∧ t !! canonical world_duplicate_read_fault "https://example.com/a" = Some record_old
   ∧ r.2 = None
   ∧ db r.1 = {["https://example.com/a" := record_article]}
   ∧ trace r.1
     = [ LogInitializing;
         LogDbCheckFailed DatabaseError;
         CallRequestsGet "https://example.com/a";
         LogScraping 1 2 "https://example.com/a" 0;
         CallDriverGet "https://example.com/a";
         CallSaveArticle "https://example.com/a";
         LogUpdated "Headline" "https://example.com/a";
         LogDbCheckFailed DatabaseError;
         CallRequestsGet "https://example.com/a";
         LogScraping 2 2 "https://example.com/a" 0;
         CallDriverGet "https://example.com/a";
         CallSaveArticle "https://example.com/a";
         LogUpdated "Headline" "https://example.com/a";
         CallDriverQuit ])
  ∧ (let r := scraper_run (serving links_duplicate doc_h1_and_title) ∅ in
     r.2 = None
     ∧ db r.1 = ∅
     ∧ trace r.1
       = [ LogInitializing;
           CallRequestsGet "https://example.com/a";
           LogScraping 1 2 "https://example.com/a" 0;
           CallDriverGet "https://example.com/a";
           CallSaveArticle "https://example.com/a";
           LogFailed "https://example.com/a" IntegrityError;
           CallRequestsGet "https://example.com/a";
           LogScraping 2 2 "https://example.com/a" 0;
           CallDriverGet "https://example.com/a";
           CallSaveArticle "https://example.com/a";
           LogFailed "https://example.com/a" IntegrityError;
           CallDriverQuit ]).
Proof. by vm_compute. Qed.

(** C5, amended: when the existence check answers, a link whose
    canonical form the store already holds is skipped, and the turn
    does nothing but log it: no probe, no render, no call of
    [save_article].  So when the existence checks answer and the first
    link of [["https://example.com/a/"; "https://example.com/a"]] is
    fetched and saved, the second one is only logged as skipped and the
    run leaves exactly one new record, under ["https://example.com/a"]. *)
Theorem saved_url_is_skipped :
  (∀ (w : World) (total idx : nat) (link : string) (st : RunState),
     db_read_fault w idx = None →
     is_Some (db st !! canonical w link) →
     iteration w total idx link st
     = (skip (emit (LogSkipSaved (canonical w link)) st), None))
  ∧ (∀ (w : World) (t t1 : Table) (parsed : string * string) (status : Z)
       (doc : soup) (article : ArticleDict) (obj : Article) (created : bool),
       webdriver_builder w = Ok () →
       read_links w = Ok links_duplicate →
       db_read_fault w 1 = None → db_read_fault w 2 = None →
       t !! "https://example.com/a" = None →
       urlparse w "https://example.com/a" = Ok parsed → valid_url parsed = true →
       requests_get w 1 "https://example.com/a" = Ok status →
       is_bad_status status = false →
       render w 1 "https://example.com/a" = Ok doc →
       extract w doc "https://example.com/a" = Ok article →
       save_article w t article = Ok (t1, obj, created) →
       (scraper_run w t).2 = None
       ∧ db (scraper_run w t).1 = <["https://example.com/a" := obj]> t
       ∧ url obj = "https://example.com/a"
       ∧ trace (scraper_run w t).1
         = [ LogInitializing;
             CallRequestsGet "https://example.com/a";
             LogScraping 1 2 "https://example.com/a" 0;
             CallDriverGet "https://example.com/a";
             CallSaveArticle "https://example.com/a";
             LogSaved (title obj) "https://example.com/a";
             LogSkipSaved "https://example.com/a" ] ++ quit_events w).
Proof.
  split; [apply iteration_saved|].
  intros w t t1 parsed status doc article obj created
    Hwd Hlinks Hf1 Hf2 Hnew Hparse Hvalid Hget Hstatus Hrender Hextract Hsave.
  destruct (extract_Ok w _ _ _ Hextract) as [Hurl _].
  pose proof (normalized_url_Some w _ _ Hurl ltac:(done)) as Hkey.
  destruct (save_article_Ok _ _ _ _ _ _ Hsave) as (Ht1 & Hu & _ & _ & _ & Hcreated & _).
  rewrite Hkey in Ht1, Hu, Hcreated. rewrite Hnew in Hcreated.
  change (bool_decide (None = None)) with true in Hcreated. subst created.
  rewrite scraper_run_eq, Hwd, Hlinks. unfold links_duplicate. cbn [loop length].
  rewrite iteration_new; rewrite ?canonical_example_slash; [|done..].
  rewrite (fetch_and_save_saved w 2 1 _ (started t) _ _ _ _ _ _ _
             Hparse Hvalid Hget Hstatus Hrender Hextract Hsave).
  rewrite iteration_saved; rewrite ?canonical_example; cbn [db]; [|done|].
  2:{ rewrite Ht1, lookup_insert_eq. eauto. }
  cbn. by rewrite Hu, Ht1.
Qed.

Lemma saved_url_is_skipped_witness :
  db (scraper_run (serving links_duplicate doc_article) ∅).1
  = {["https://example.com/a" := record_article]}.
Proof.
  destruct saved_url_is_skipped as [_ He2e].
  pose proof (He2e (serving links_duplicate doc_article) ∅
              {["https://example.com/a" := record_article]}
              ("https", "example.com") 200 doc_article
              {| a_title := PStr "Headline";
                 a_body := PTag (Tag "article" []
                                   [Tag "p" [] [NavigableString "Text of the article."]]);
                 a_plain_body := PStr "Text of the article.";
                 a_published_at := DStr "01.03.2024 10:00:00";
                 a_url := Some "https://example.com/a" |}
              record_article true
              eq_refl eq_refl eq_refl eq_refl eq_refl eq_refl
              eq_refl eq_refl eq_refl eq_refl eq_refl eq_refl)
    as (_ & Hdb & _).
  exact Hdb.
Defined.

(** C10: when the check of the store raises, the error is logged and the
    turn goes on with what follows the check, the validation, the probe,
    the render and [save_article], as for a link that the store does
    not hold.  When the store does hold the link and the page is fetched
    and saved, the record is updated in place.  A run where this
    happens closes the statement. *)
Theorem read_fault_is_not_a_skip :
  (∀ (w : World) (total idx : nat) (link : string) (st : RunState) (e : exn),
     db_read_fault w idx = Some e →
     iteration w total idx link st
     = fetch_and_save w total idx (canonical w link) (emit (LogDbCheckFailed e) st))
  ∧ (∀ (w : World) (total idx : nat) (link : string) (st : RunState) (e : exn)
       (old : Article) (parsed : string * string) (status : Z) (doc : soup)
       (article : ArticleDict) (t' : Table) (obj : Article) (created : bool),
       db_read_fault w idx = Some e →
       db st !! canonical w link = Some old →
       canonical w link ≠ "" →
       urlparse w (canonical w link) = Ok parsed → valid_url parsed = true →
       requests_get w idx (canonical w link) = Ok status →
       is_bad_status status = false →
       render w idx (canonical w link) = Ok doc →
       extract w doc (canonical w link) = Ok article →
       save_article w (db st) article = Ok (t', obj, created) →
       created = false
       ∧ (iteration w total idx link st).2 = None
       ∧ db (iteration w total idx link st).1 = <[canonical w link := obj]> (db st)
       ∧ skipped_cnt (iteration w total idx link st).1 = skipped_cnt st
       ∧ trace (iteration w total idx link st).1
         = trace st ++
           [ LogDbCheckFailed e;
             CallRequestsGet (canonical w link);
             LogScraping idx total (canonical w link) (skipped_cnt st);
             CallDriverGet (canonical w link);
             CallSaveArticle (canonical w link);
             LogUpdated (title obj) (canonical w link) ])
  ∧ (let r := scraper_run world_read_fault {["https://example.com/a" := record_old]} in
     r.2 = None
     ∧ db r.1 = {["https://example.com/a" := record_article]}
     ∧ skipped_cnt r.1 = 0
     ∧ trace r.1
       = [ LogInitializing;
           LogDbCheckFailed DatabaseError;
           CallRequestsGet "https://example.com/a";
           LogScraping 1 1 "https://example.com/a" 0;
           CallDriverGet "https://example.com/a";
           CallSaveArticle "https://example.com/a";
           LogUpdated "Headline" "https://example.com/a";
           CallDriverQuit ]).
Proof.
  split; [apply iteration_read_fault|]. split; [|by vm_compute].
  intros w total idx link st e old parsed status doc article t' obj created
    Hfault Hold Hne Hparse Hvalid Hget Hstatus Hrender Hextract Hsave.
  destruct (extract_Ok w _ _ _ Hextract) as [Hurl _].
  pose proof (normalized_url_Some w _ _ Hurl Hne) as Hkey.
  destruct (save_article_Ok _ _ _ _ _ _ Hsave) as (Ht' & Hu & _ & _ & _ & Hcreated & _).
  rewrite Hkey in Ht', Hu, Hcreated. rewrite Hold in Hcreated.
  change (bool_decide (Some old = None)) with false in Hcreated. subst created.
  rewrite (iteration_read_fault w total idx link st e Hfault).
  rewrite (fetch_and_save_saved w total idx _ (emit (LogDbCheckFailed e) st)
             _ _ _ _ _ _ _ Hparse Hvalid Hget Hstatus Hrender Hextract Hsave).
  cbn. rewrite Hu, <- app_assoc. done.
Qed.

Lemma read_fault_is_not_a_skip_witness :
  iteration world_read_fault 1 1 "https://example.com/a"
    (started {["https://example.com/a" := record_old]})
  = fetch_and_save world_read_fault 1 1 "https://example.com/a"
      (emit (LogDbCheckFailed DatabaseError)
         (started {["https://example.com/a" := record_old]})).
Proof.
  destruct read_fault_is_not_a_skip as [Hgo _].
  exact (Hgo world_read_fault 1%nat 1%nat "https://example.com/a" _ DatabaseError eq_refl).
Defined.

(** ** Published-Date Extractor *)

Section published_at_facts.
Variable w : World.

(** Without the date parser nothing is looked for. *)
Lemma published_at_finder_unavailable (doc : option soup) :
  dateparser_available w = false → published_at_finder w doc = Ok None.
Proof. intros H. unfold published_at_finder. destruct doc; [|done]. by rewrite H. Qed.

(** The first strategy finds no date when there is no [<time>], when the
    element holds nothing to parse, or when the parser finds no date. *)
Lemma time_strategy_no_date (doc : soup) :
  match Bs4.find (Bs4.named "time") doc with
  | None => True
  | Some time_tag =>
      let raw := Py.or_else (Bs4.get "datetime" time_tag) (Bs4.get_text true time_tag) in
      raw = "" ∨ dateparser_parse w raw = Ok None
  end →
  time_strategy w doc = Ok None.
Proof.
  unfold time_strategy. destruct (Bs4.find (Bs4.named "time") doc) as [time_tag|]; [|done].
  cbn zeta. intros [-> | ->]; [done|]. by destruct (Py.truthy _).
Qed.

(** When the first strategy finds no date, the second one decides, and
    whatever it raises is swallowed. *)
Lemma published_at_finder_second (doc : soup) :
  dateparser_available w = true →
  time_strategy w doc = Ok None →
  published_at_finder w (Some doc)
  = Ok match author_strategy w doc with
       | Ok found => found
       | Raise _ => None
       end.
Proof.
  intros Ha Ht. unfold published_at_finder. rewrite Ha, Ht. cbn.
  by destruct (author_strategy w doc) as [[s|]|e].
Qed.

(** A date that the first strategy finds is returned as
    [DD.MM.YYYY HH:MM:SS]. *)
Lemma published_at_finder_time (doc : soup) (time_tag : node) (d : datetime) :
  dateparser_available w = true →
  Bs4.find (Bs4.named "time") doc = Some time_tag →
  Py.or_else (Bs4.get "datetime" time_tag) (Bs4.get_text true time_tag) ≠ "" →
  dateparser_parse w
    (Py.or_else (Bs4.get "datetime" time_tag) (Bs4.get_text true time_tag)) = Ok (Some d) →
  published_at_finder w (Some doc) = Ok (Some (strftime d)).
Proof.
  intros Ha Hfind Hraw Hparse. unfold published_at_finder, time_strategy.
  rewrite Ha, Hfind. cbn [negb].
  destruct (Py.or_else _ _) as [|c raw] eqn:E; [done|].
  cbn [Py.truthy]. by rewrite Hparse.
Qed.

End published_at_facts.

(** The scenario of the specification: when the date parser reads the
    timestamp, [<time datetime="2024-03-01T10:00:00">] gives
    ["01.03.2024 10:00:00"]. *)
Lemma published_at_finder_iso (w : World) :
  dateparser_available w = true →
  dateparser_parse w "2024-03-01T10:00:00"
  = Ok (Some {| year := 2024; month := 3; day := 1;
                hour := 10; minute := 0; second := 0 |}) →
  published_at_finder w (Some [Tag "time" [("datetime", "2024-03-01T10:00:00")] []])
  = Ok (Some "01.03.2024 10:00:00").
Proof.
  intros Ha Hparse.
  exact (published_at_finder_time w
           [Tag "time" [("datetime", "2024-03-01T10:00:00")] []]
           (Tag "time" [("datetime", "2024-03-01T10:00:00")] [])
           _ Ha eq_refl ltac:(done) Hparse).
Qed.

Lemma published_at_finder_iso_reference :
  published_at_finder Reference.quiet
    (Some [Tag "time" [("datetime", "2024-03-01T10:00:00")] []])
  = Ok (Some "01.03.2024 10:00:00").
Proof. apply published_at_finder_iso; reflexivity. Defined.

(** C9 on the code: the call of the date parser for the [<time>]
    element is outside the [try] of [published_at_finder]; when it
    raises, the exception is not swallowed and the second strategy is
    not tried: [published_at_finder] itself raises. *)
Theorem time_parse_exception_escapes (w : World) (doc : soup) (time_tag : node)
    (e : exn) :
  dateparser_available w = true →
  Bs4.find (Bs4.named "time") doc = Some time_tag →
  Py.or_else (Bs4.get "datetime" time_tag) (Bs4.get_text true time_tag) ≠ "" →
  dateparser_parse w
    (Py.or_else (Bs4.get "datetime" time_tag) (Bs4.get_text true time_tag)) = Raise e →
  published_at_finder w (Some doc) = Raise e.
Proof.
  intros Ha Hfind Hraw Hparse. unfold published_at_finder, time_strategy.
  rewrite Ha, Hfind. cbn [negb].
  destruct (Py.or_else _ _) as [|c raw] eqn:E; [done|].
  cbn [Py.truthy]. by rewrite Hparse.
Qed.

Lemma time_parse_exception_escapes_witness :
  published_at_finder world_parse_raising (Some doc_time_text) = Raise ValueError.
Proof.
  apply (time_parse_exception_escapes world_parse_raising doc_time_text
           (Tag "time" [] [NavigableString "jutro"]) ValueError);
    [reflexivity | reflexivity | discriminate | reflexivity].
Defined.

(** The same in a run: the page is reachable and has a title, but the
    item is logged as failed and [save_article] is not called. *)
Example run_time_parse_exception :
  let r := scraper_run world_parse_raising ∅ in
  r.2 = None
  ∧ db r.1 = ∅
  ∧ trace r.1
    = [ LogInitializing;
        CallRequestsGet "https://example.com/a";
        LogScraping 1 1 "https://example.com/a" 0;
        CallDriverGet "https://example.com/a";
        LogFailed "https://example.com/a" ValueError;
        CallDriverQuit ].
Proof. by vm_compute. Qed.

(** * Further properties of the code *)

(** ** Text Normalizer *)

Section strip_facts.

Lemma lstrip_idem (s : string) : Py.lstrip (Py.lstrip s) = Py.lstrip s.
Proof.
  induction s as [|c s IH]; [done|]. cbn [Py.lstrip].
  destruct (Py.isspace c) eqn:E; [done|]. cbn [Py.lstrip]. by rewrite E.
Qed.

Lemma rstrip_idem (s : string) : Py.rstrip (Py.rstrip s) = Py.rstrip s.
Proof.
  induction s as [|c s IH]; [done|]. cbn [Py.rstrip].
  destruct (Py.rstrip s) as [|c' r] eqn:E.
  - destruct (Py.isspace c) eqn:Ec; [done|]. cbn [Py.rstrip]. by rewrite Ec.
  - cbn [Py.rstrip] in *. by rewrite IH.
Qed.

Lemma lstrip_length (s : string) :
  (String.length (Py.lstrip s) ≤ String.length s)%nat.
Proof.
  induction s as [|c s IH]; [done|]. cbn [Py.lstrip].
  destruct (Py.isspace c); cbn [String.length]; lia.
Qed.

(** A string that [lstrip] keeps does not start with white space. *)
Lemma lstrip_fixed_head (c : ascii) (s : string) :
  Py.lstrip (String c s) = String c s → Py.isspace c = false.
Proof.
  cbn [Py.lstrip]. destruct (Py.isspace c); [|done].
  intros H. apply (f_equal String.length) in H.
  pose proof (lstrip_length s). cbn [String.length] in H. lia.
Qed.

(** Taking white space off the end leaves the start as it is. *)
Lemma lstrip_rstrip (s : string) :
  Py.lstrip s = s → Py.lstrip (Py.rstrip s) = Py.rstrip s.
Proof.
  destruct s as [|c s]; [done|]. intros E%lstrip_fixed_head.
  cbn [Py.rstrip]. destruct (Py.rstrip s); rewrite ?E; cbn [Py.lstrip]; by rewrite E.
Qed.

Lemma strip_stripped (s : string) : stripped (Py.strip s).
Proof.
  unfold stripped, Py.strip. split; [|apply rstrip_idem].
  apply lstrip_rstrip, lstrip_idem.
Qed.

Lemma stripped_strip (s : string) : stripped s ↔ Py.strip s = s.
Proof.
  split.
  - intros [Hl Hr]. unfold Py.strip. by rewrite Hl.
  - intros <-. apply strip_stripped.
Qed.

Lemma strip_idem (s : string) : Py.strip (Py.strip s) = Py.strip s.
Proof. apply stripped_strip, strip_stripped. Qed.

Lemma stripped_empty : stripped "".
Proof. done. Qed.

Lemma lstrip_append (a b : string) :
  a ≠ "" → Py.lstrip a = a → Py.lstrip (a +:+ b) = a +:+ b.
Proof.
  destruct a as [|c a]; [done|]. intros _ E%lstrip_fixed_head.
  rewrite append_cons. cbn [Py.lstrip]. by rewrite E.
Qed.

Lemma rstrip_append (a b : string) :
  b ≠ "" → Py.rstrip b = b → Py.rstrip (a +:+ b) = a +:+ b.
Proof.
  intros Hb Hr. induction a as [|c a IH]; [by rewrite append_nil|].
  rewrite append_cons. cbn [Py.rstrip]. rewrite IH.
  destruct (a +:+ b) eqn:E; [|done].
  destruct a; [by rewrite append_nil in E|by rewrite append_cons in E].
Qed.

Lemma append_empty_r (a : string) : a +:+ "" = a.
Proof. induction a as [|c a IH]; [done|]. by rewrite append_cons, IH. Qed.

(** Joining cleaned strings gives a cleaned string. *)
Lemma stripped_append (a b : string) :
  stripped a → stripped b → stripped (a +:+ b).
Proof.
  intros [Hal Har] [Hbl Hbr].
  destruct a as [|c a]; [by rewrite append_nil|].
  destruct b as [|d b]; [by rewrite append_empty_r|].
  split; [by apply lstrip_append|by apply rstrip_append].
Qed.

(** The text of an element, taken with [strip=True], has no white space
    at either end. *)
Lemma get_text_stripped (n : node) : stripped (Bs4.get_text true n).
Proof.
  induction n as [s|s|s|name attrs cs IH] using node_forall_ind.
  - apply strip_stripped.
  - apply stripped_empty.
  - apply stripped_empty.
  - cbn [Bs4.get_text]. induction IH as [|c cs Hc _ IHcs]; [apply stripped_empty|].
    by apply stripped_append.
Qed.

(** The text that [_normalize_text] returns is not empty and has no
    white space at either end. *)
Lemma normalize_text_stripped (value : pyval) (text : string) :
  _normalize_text value = Some text → text ≠ "" ∧ stripped text.
Proof.
  destruct value as [|s|n]; [done|..]; cbn; unfold Py.or_None; intros H.
  - pose proof (strip_stripped s) as Hs.
    destruct (Py.strip s); simplify_eq/=. done.
  - pose proof (get_text_stripped n) as Hs.
    destruct (Bs4.get_text true n); simplify_eq/=. done.
Qed.

End strip_facts.

(** X1: what [_normalize_text] returns is never the empty string and
    has no white space at either end; normalizing it again changes
    nothing. *)
Theorem normalize_text_cleaned (value : pyval) (text : string) :
  _normalize_text value = Some text →
  text ≠ "" ∧ Py.strip text = text ∧ _normalize_text (PStr text) = Some text.
Proof.
  intros [Hne Hs%stripped_strip]%normalize_text_stripped.
  split; [done|]. split; [done|].
  cbn. rewrite Hs. by destruct text.
Qed.

Lemma normalize_text_cleaned_witness :
  _normalize_text (PStr "  Breaking news ") = Some "Breaking news"
  ∧ _normalize_text (PStr "Breaking news") = Some "Breaking news".
Proof.
  split; [reflexivity|].
  exact (proj2 (proj2 (normalize_text_cleaned (PStr "  Breaking news ")
                         "Breaking news" eq_refl))).
Defined.

(** ** Title Extractor *)

(** X2: a title that [title_finder] returns has no white space at
    either end; it is the empty string, not absence, exactly when the
    page has no [h1] and the [content] of its [og:title] is white space
    only. *)
Lemma title_strategy_stripped (doc : soup) (s : string) :
  title_strategy doc = Some s → s ≠ "" ∧ Py.strip s = s.
Proof.
  unfold title_strategy. destruct (Bs4.find (Bs4.named "title") doc) as [n|]; [|done].
  change (Some n ≫= _) with (_normalize_text (PTag n)).
  by intros [Hne Hs%stripped_strip]%normalize_text_stripped.
Qed.

(** Every title that [title_finder] returns is stripped. *)
Lemma title_finder_strip (doc : soup) (s : string) :
  title_finder (Some doc) = Some s → Py.strip s = s.
Proof.
  rewrite title_finder_og.
  destruct (Bs4.find (Bs4.named "h1") doc) as [h1|].
  - by intros [_ Hs%stripped_strip]%normalize_text_stripped.
  - unfold og_strategy. destruct (Py.if_truthy (og_content doc)) as [content|].
    + cbn. intros [= <-]. apply strip_idem.
    + cbn [fmap option_fmap option_map first_success].
      destruct (title_strategy doc) as [s'|] eqn:Et; [|done]. intros [= ->].
      by apply title_strategy_stripped in Et as [_ ?].
Qed.

Theorem title_finder_stripped (doc : soup) (s : string) :
  title_finder (Some doc) = Some s →
  Py.strip s = s
  ∧ (s = "" ↔
     Bs4.find (Bs4.named "h1") doc = None
     ∧ ∃ content, og_content doc = Some content ∧ content ≠ "" ∧ Py.strip content = "").
Proof.
  intros H. split; [by apply (title_finder_strip doc)|].
  revert H. rewrite title_finder_og.
  destruct (Bs4.find (Bs4.named "h1") doc) as [h1|] eqn:Eh.
  - intros [Hne _]%normalize_text_stripped. split; [done|]. by intros [? _].
  - unfold og_strategy.
    destruct (Py.if_truthy (og_content doc)) as [content|] eqn:Eo.
    + cbn. intros [= <-].
      unfold Py.if_truthy, Py.or_None in Eo.
      destruct (og_content doc) as [[|c og]|]; simplify_eq/=.
      split.
      * intros H. split; [done|]. by exists (String c og).
      * by intros [_ (content & [= <-] & _ & H)].
    + cbn [fmap option_fmap option_map first_success].
      destruct (title_strategy doc) as [s'|] eqn:Et; [|done]. intros [= ->].
      apply title_strategy_stripped in Et as [Hne _]. split; [done|].
      intros [_ (content & Hc & Hcne & _)]. rewrite Hc in Eo.
      by destruct content.
Qed.

Lemma title_finder_stripped_witness :
  title_finder (Some doc_blank_og) = Some ""
  ∧ ∃ content, og_content doc_blank_og = Some content
               ∧ content ≠ "" ∧ Py.strip content = "".
Proof.
  split; [reflexivity|].
  exact (proj2 (proj1 (proj2 (title_finder_stripped doc_blank_og "" eq_refl)) eq_refl)).
Defined.

(** ** Body Extractor *)

Section decompose_facts.

(** On an element free of ad containers [decompose] has nothing to
    take out. *)
Lemma decompose_ad_free_id (n : node) :
  ad_free n = true → Bs4.decompose is_ad_div n = n.
Proof.
  induction n as [s|s|s|name attrs cs IH] using node_forall_ind; [done..|].
  rewrite ad_free_Tag, decompose_Tag. intros [_ Hcs]%andb_true_iff. f_equal.
  induction IH as [|c cs Hc _ IHcs]; [done|].
  cbn [forallb] in Hcs. apply andb_true_iff in Hcs as [Hc' Hcs].
  cbn [Bs4.decompose_all]. rewrite (ad_free_not_ad c Hc'). by rewrite Hc, IHcs.
Qed.

Lemma decompose_all_ad_free_id (doc : soup) :
  forallb ad_free doc = true → Bs4.decompose_all is_ad_div doc = doc.
Proof.
  induction doc as [|c doc IH]; [done|]. cbn [forallb].
  intros [Hc Hdoc]%andb_true_iff. cbn [Bs4.decompose_all].
  by rewrite (ad_free_not_ad c Hc), decompose_ad_free_id, IH.
Qed.

End decompose_facts.

(** X4: the clean-up of [body_finder] happens once: on the document
    that a call leaves behind, a second call changes nothing and
    returns the same element; a page without ad containers is not
    changed at all. *)
Theorem body_finder_idempotent (doc : option soup) :
  body_finder (body_finder doc).1 = body_finder doc
  ∧ (∀ d, doc = Some d → forallb ad_free d = true → (body_finder doc).1 = doc).
Proof.
  destruct doc as [d|]; [|by split].
  split.
  - cbn [body_finder fst].
    by rewrite (decompose_all_ad_free_id _ (decompose_all_ad_free d)).
  - intros d' [= <-] Hfree. cbn [body_finder fst].
    by rewrite (decompose_all_ad_free_id _ Hfree).
Qed.

(** X5: what [body_finder] returns is an element that one of the
    selectors accepts, or a div whose stripped text has more than 100
    characters; in both cases a div or an article. *)
Theorem body_finder_returns_container (doc : soup) (b : node) :
  (body_finder (Some doc)).2 = Some b →
  (selected b = true ∨ (Bs4.named "div" b = true ∧ (100 < text_len b)%nat))
  ∧ ∃ attrs cs, b = Tag "div" attrs cs ∨ b = Tag "article" attrs cs.
Proof.
  rewrite body_finder_snd. cbn zeta.
  set (cleaned := Bs4.decompose_all is_ad_div doc).
  destruct (first_selected selectors cleaned) as [tag|] eqn:E.
  - intros [= <-]. apply first_selected_Some in E as (n & a & Hin & H).
    apply find_Some in H as [H _]. split.
    + left. unfold selected. apply existsb_exists. exists (n, a).
      split; [by apply list_elem_of_In|done].
    + pose proof (selects_named _ _ _ H) as (attrs & cs & ->)%named_Tag.
      exists attrs, cs. unfold selectors in Hin.
      clear H. repeat (apply elem_of_cons in Hin as [[= -> ->]|Hin]; [auto|]).
      by apply elem_of_nil in Hin.
  - destruct (Bs4.find_all (Bs4.named "div") cleaned) as [|d divs] eqn:Ed; [done|].
    destruct (Nat.ltb_spec 100 (text_len (py_max text_len d divs))) as [Hlt|]; [|done].
    intros [= <-].
    pose proof (py_max_first_greatest text_len d divs) as [Hin _]%first_greatest_elem.
    rewrite <- Ed in Hin. apply find_all_elem in Hin as [Hin _].
    split; [by right|].
    apply named_Tag in Hin as (attrs & cs & ->). eauto.
Qed.

Lemma body_finder_returns_container_witness :
  selected (Tag "article" [] [Tag "p" [] [NavigableString (times "y" 200)]]) = true
  ∨ (Bs4.named "div" (Tag "article" [] [Tag "p" [] [NavigableString (times "y" 200)]]) = true
     ∧ (100 < text_len (Tag "article" [] [Tag "p" [] [NavigableString (times "y" 200)]]))%nat).
Proof.
  exact (proj1 (body_finder_returns_container doc_ad_and_article _ eq_refl)).
Defined.

(** ** From the page to the record *)

Section stored_facts.

Lemma or_else_normalize_stripped (o : option string) (y : string) :
  (∀ s, o = Some s → Py.strip s = s) →
  Py.or_else (_normalize_text (of_option o)) y = Py.or_else o y.
Proof.
  intros Hs. destruct o as [s|]; [|done]. cbn.
  rewrite (Hs s eq_refl). unfold Py.or_None. by destruct s.
Qed.

Lemma or_else_normalize_text (n : node) (y : string) :
  Py.or_else (_normalize_text (PStr (Bs4.get_text true n))) y
  = Py.or_else (Some (Bs4.get_text true n)) y.
Proof.
  pose proof (get_text_stripped n) as Hs%stripped_strip. cbn.
  rewrite Hs. unfold Py.or_None. by destruct (Bs4.get_text true n).
Qed.

End stored_facts.

(** X3: the texts that the extractors find on the page are the texts
    that the record holds: the title is the title found and the plain
    body is the stripped text of the element found, each replaced by the
    sentinel when nothing (or nothing but the empty string) was found,
    and both body fields are the sentinel when no element was found; the
    second normalization in [save_article] changes none of them. *)
Theorem stored_is_found (w : World) (t t' : Table) (doc : soup) (link : string)
    (article : ArticleDict) (obj : Article) (created : bool) :
  link ≠ "" →
  extract w doc link = Ok article →
  save_article w t article = Ok (t', obj, created) →
  url obj = link
  ∧ title obj = Py.or_else (title_finder (Some doc)) sentinel
  ∧ match (body_finder (Some doc)).2 with
    | Some b => plain_body obj = Py.or_else (Some (Bs4.get_text true b)) sentinel
    | None => body obj = sentinel ∧ plain_body obj = sentinel
    end.
Proof.
  intros Hne Hextract (_ & Hu & Ht & Hb & Hp & _)%save_article_Ok.
  destruct (extract_Ok w _ _ _ Hextract) as [Hurl _].
  rewrite (normalized_url_Some w _ _ Hurl Hne) in Hu. split; [done|].
  rewrite Ht, Hb, Hp. clear Hu Ht Hb Hp Hurl.
  unfold extract in Hextract.
  destruct (body_finder (Some doc)) as [doc' body_] eqn:Eb.
  destruct (published_at_finder w doc'); [|done].
  injection Hextract as <-. cbn [snd]. split.
  - unfold normalized_title. cbn [a_title].
    apply or_else_normalize_stripped. intros s Hs.
    by apply (title_finder_strip doc).
  - unfold normalized_body. cbn [a_body a_plain_body].
    destruct body_ as [b|]; [|done]. cbn [fst snd].
    apply or_else_normalize_text.
Qed.

Lemma stored_is_found_witness :
  title record_article = "Headline"
  ∧ plain_body record_article = "Text of the article.".
Proof.
  assert (∃ article,
            extract (serving [] doc_article) doc_article "https://example.com/a" = Ok article
            ∧ save_article (serving [] doc_article) ∅ article
              = Ok ({["https://example.com/a" := record_article]}, record_article, true))
    as (article & Hextract & Hsave) by (eexists; split; reflexivity).
  assert ("https://example.com/a" ≠ "") as Hne by discriminate.
  destruct (stored_is_found (serving [] doc_article) ∅ _ doc_article
              "https://example.com/a" article record_article true Hne Hextract Hsave)
    as (_ & Htitle & Hrest).
  split; [exact Htitle|exact Hrest].
Defined.

(** ** The date *)

Section date_facts.

Lemma is_digit_digit (n : nat) : Reference.is_digit (digit n) = true.
Proof.
  unfold digit. pose proof (Nat.mod_upper_bound n 10 ltac:(done)) as Hlt.
  set (k := (n mod 10)%nat) in *. clearbody k.
  do 10 (destruct k as [|k]; [reflexivity|]). lia.
Qed.

Lemma decimal_go_lt (fuel n : nat) (acc : string) :
  (n < 10)%nat → decimal_go (S fuel) n acc = String (digit n) acc.
Proof.
  intros H. cbn [decimal_go]. by destruct (Nat.ltb_spec n 10); [|lia].
Qed.

Lemma decimal_go_ge (fuel n : nat) (acc : string) :
  (10 ≤ n)%nat →
  decimal_go (S fuel) n acc = decimal_go fuel (n / 10) (String (digit n) acc).
Proof.
  intros H. cbn [decimal_go]. by destruct (Nat.ltb_spec n 10); [lia|].
Qed.

Lemma decimal_go_nonempty (fuel n : nat) (acc : string) :
  acc ≠ "" → decimal_go fuel n acc ≠ "".
Proof.
  revert n acc. induction fuel as [|fuel IH]; intros n acc Hacc; [done|].
  cbn [decimal_go]. destruct (n <? 10)%nat; [done|]. by apply IH.
Qed.

Lemma decimal_nonempty (n : nat) : decimal n ≠ "".
Proof.
  unfold decimal. cbn [decimal_go]. destruct (n <? 10)%nat; [done|].
  by apply decimal_go_nonempty.
Qed.

(** The digits that [decimal] writes, by the size of the number. *)
Lemma decimal_1 (n : nat) : (n < 10)%nat → decimal n = String (digit n) "".
Proof. intros H. unfold decimal. by rewrite decimal_go_lt. Qed.

Lemma decimal_2 (n : nat) :
  (10 ≤ n < 100)%nat → decimal n = String (digit (n / 10)) (String (digit n) "").
Proof.
  intros H. unfold decimal. replace (S n) with (S (S (n - 1))) by lia.
  rewrite decimal_go_ge by lia. apply decimal_go_lt.
  apply Nat.Div0.div_lt_upper_bound; lia.
Qed.

Lemma decimal_3 (n : nat) :
  (100 ≤ n < 1000)%nat →
  decimal n
  = String (digit (n / 10 / 10)) (String (digit (n / 10)) (String (digit n) "")).
Proof.
  intros H. unfold decimal. replace (S n) with (S (S (S (n - 2)))) by lia.
  assert (10 ≤ n / 10 < 100)%nat as H1.
  { split; [apply Nat.div_le_lower_bound; lia|apply Nat.Div0.div_lt_upper_bound; lia]. }
  rewrite decimal_go_ge by lia. rewrite decimal_go_ge by lia. apply decimal_go_lt.
  apply Nat.Div0.div_lt_upper_bound; lia.
Qed.

Lemma decimal_4 (n : nat) :
  (1000 ≤ n < 10 * 1000)%nat →
  decimal n
  = String (digit (n / 10 / 10 / 10))
      (String (digit (n / 10 / 10)) (String (digit (n / 10)) (String (digit n) ""))).
Proof.
  intros H. unfold decimal. replace (S n) with (S (S (S (S (n - 3))))) by lia.
  assert (100 ≤ n / 10 < 1000)%nat as H1.
  { split; [apply Nat.div_le_lower_bound; lia|apply Nat.Div0.div_lt_upper_bound; lia]. }
  assert (10 ≤ n / 10 / 10 < 100)%nat as H2.
  { split; [apply Nat.div_le_lower_bound; lia|apply Nat.Div0.div_lt_upper_bound; lia]. }
  rewrite decimal_go_ge by lia. rewrite decimal_go_ge by lia.
  rewrite decimal_go_ge by lia. apply decimal_go_lt.
  apply Nat.Div0.div_lt_upper_bound; lia.
Qed.

(** A field of two digits has two digits as long as the number is below
    100, as every field of a date but the year is. *)
Lemma pad2_digits (n : nat) :
  (n < 100)%nat → ∃ a b, pad2 n = String a (String b "")
                         ∧ Reference.is_digit a = true ∧ Reference.is_digit b = true.
Proof.
  intros H. unfold pad2. destruct (Nat.ltb_spec n 10).
  - rewrite decimal_1 by done. exists "0"%char, (digit n).
    split; [done|]. split; [done|apply is_digit_digit].
  - rewrite decimal_2 by lia. exists (digit (n / 10)), (digit n).
    split; [done|]. split; apply is_digit_digit.
Qed.

(** [strftime] never writes the empty string. *)
Lemma strftime_truthy (d : datetime) : Py.truthy (strftime d) = true.
Proof.
  unfold strftime.
  assert (pad2 (day d) ≠ "") as H.
  { unfold pad2. destruct (day d <? 10)%nat; [done|apply decimal_nonempty]. }
  destruct (pad2 (day d)); [done|]. by rewrite append_cons.
Qed.

Lemma valid_datetime_bounds (d : datetime) :
  Reference.valid_datetime d = true →
  (1 ≤ year d < 10 * 1000 ∧ month d < 100 ∧ day d < 100
   ∧ hour d < 100 ∧ minute d < 100 ∧ second d < 100)%nat.
Proof.
  unfold Reference.valid_datetime. rewrite !andb_true_iff.
  rewrite !Nat.leb_le, !Nat.ltb_lt. change 9999%nat with (9 * 1000 + 999)%nat.
  assert (Reference.days_in_month (year d) (month d) ≤ 31)%nat.
  { unfold Reference.days_in_month. generalize (month d). intros m.
    do 12 (destruct m as [|m]; [try destruct (_ || _); lia|]). lia. }
  lia.
Qed.

(** The date string of a date value has the shape [DD.MM.YYYY HH:MM:SS]
    exactly when the year has four digits. *)
Lemma strftime_shape (d : datetime) :
  Reference.valid_datetime d = true →
  dmy_hms_shape (strftime d) = true ↔ (1000 ≤ year d)%nat.
Proof.
  intros (Hy & Hm & Hd & HH & HM & HS)%valid_datetime_bounds.
  unfold strftime.
  destruct (pad2_digits _ Hd) as (d1 & d2 & -> & Hd1 & Hd2).
  destruct (pad2_digits _ Hm) as (m1 & m2 & -> & Hm1 & Hm2).
  destruct (pad2_digits _ HH) as (h1 & h2 & -> & Hh1 & Hh2).
  destruct (pad2_digits _ HM) as (n1 & n2 & -> & Hn1 & Hn2).
  destruct (pad2_digits _ HS) as (s1 & s2 & -> & Hs1 & Hs2).
  destruct (Nat.lt_ge_cases (year d) 10) as [H1|H1];
    [|destruct (Nat.lt_ge_cases (year d) 100) as [H2|H2];
      [|destruct (Nat.lt_ge_cases (year d) 1000) as [H3|H3]]].
  - rewrite decimal_1 by done. split; [discriminate|lia].
  - rewrite decimal_2 by done. split; [discriminate|lia].
  - rewrite decimal_3 by done. split; [discriminate|lia].
  - rewrite decimal_4 by lia. split; [done|]. intros _.
    unfold dmy_hms_shape.
    cbv -[digit Nat.div Reference.is_digit andb].
    by rewrite Hd1, Hd2, Hm1, Hm2, Hh1, Hh2, Hn1, Hn2, Hs1, Hs2, !is_digit_digit.
Qed.

(** Whatever date string the extractor returns was written by
    [strftime] from a date that the parser found. *)
Lemma published_at_finder_strftime (w : World) (doc : option soup) (s : string) :
  published_at_finder w doc = Ok (Some s) →
  ∃ raw d, dateparser_parse w raw = Ok (Some d) ∧ s = strftime d.
Proof.
  unfold published_at_finder. destruct doc as [doc|]; [|done].
  destruct (negb _); [done|].
  assert (∀ r, time_strategy w doc = r ∨ author_strategy w doc = r → r = Ok (Some s) →
               ∃ raw d, dateparser_parse w raw = Ok (Some d) ∧ s = strftime d) as Hstrat.
  { unfold time_strategy, author_strategy. intros r [<-|<-].
    - destruct (Bs4.find (Bs4.named "time") doc) as [time_tag|]; [|done].
      destruct (Py.truthy _); [|done].
      destruct (dateparser_parse w _) as [[d|]|] eqn:E; [|done..].
      intros [= <-]. eauto.
    - destruct (Bs4.find is_author_link doc); [|done].
      destruct (Bs4.find_next _ _ _) as [p|]; [|done]. cbn.
      destruct (Py.truthy _); [|done].
      destruct (dateparser_parse w _) as [[d|]|] eqn:E; [|done..].
      intros [= <-]. eauto. }
  destruct (time_strategy w doc) as [[s1|]|] eqn:E1; cbn; [| |done].
  - intros [= ->]. apply (Hstrat _ (or_introl eq_refl) eq_refl).
  - destruct (author_strategy w doc) as [[s2|]|] eqn:E2; [|done..].
    intros [= ->]. apply (Hstrat _ (or_intror eq_refl) eq_refl).
Qed.

End date_facts.

(** A date of the year 999 on the page gives a string of eighteen
    characters, which [strptime] with a year of four digits does not
    read back. *)
Example published_at_finder_year_999 :
  published_at_finder Reference.quiet
    (Some [Tag "time" [("datetime", "0999-03-01T10:00:00")] []])
  = Ok (Some "01.03.999 10:00:00")
  ∧ dmy_hms_shape "01.03.999 10:00:00" = false
  ∧ Reference.strptime_fixed "01.03.999 10:00:00" = Raise ValueError.
Proof. by vm_compute. Qed.

(** X6: a date that [published_at_finder] returns is what [strftime]
    writes for a date that the parser gave, and it has the shape
    [DD.MM.YYYY HH:MM:SS] (nineteen characters, digits and separators in
    their places) exactly when the year of that date is 1000 or later:
    the year is written without padding, so that an earlier year gives a
    shorter string, which is not of that shape. *)
Theorem published_at_finder_shape (w : World) (doc : option soup) (s : string) :
  published_at_finder w doc = Ok (Some s) →
  ∃ raw d,
    dateparser_parse w raw = Ok (Some d) ∧ s = strftime d
    ∧ (Reference.valid_datetime d = true →
       (dmy_hms_shape s = true ↔ (1000 ≤ year d)%nat)).
Proof.
  intros H. destruct (published_at_finder_strftime w doc s H) as (raw & d & Hp & ->).
  exists raw, d. split; [done|]. split; [done|]. apply strftime_shape.
Qed.

Lemma published_at_finder_shape_witness :
  ∃ raw d,
    dateparser_parse Reference.quiet raw = Ok (Some d)
    ∧ "01.03.2024 10:00:00" = strftime d
    ∧ (Reference.valid_datetime d = true →
       (dmy_hms_shape "01.03.2024 10:00:00" = true ↔ (1000 ≤ year d)%nat)).
Proof.
  exact (published_at_finder_shape Reference.quiet
           (Some [Tag "time" [("datetime", "2024-03-01T10:00:00")] []])
           "01.03.2024 10:00:00" eq_refl).
Defined.

(** X7: a candidate whose date parses is persisted whenever the time
    zone can be attached and the database has no fault: the row is new
    exactly when the store did not hold the URL, and it carries the
    date.  With a date string that [strftime] wrote and a [strptime]
    that reads it back, the date stored is the date found. *)
Theorem save_article_with_date (w : World) (t : Table) (article : ArticleDict)
    (d d' : datetime) :
  a_published_at article = DStr (strftime d) →
  strptime w (strftime d) = Ok d →
  make_aware w d = Ok d' →
  db_write_fault w (normalized_url w article) = None →
  ∃ obj,
    save_article w t article
    = Ok (<[normalized_url w article := obj]> t, obj,
          bool_decide (t !! normalized_url w article = None))
    ∧ published_at obj = Some d'.
Proof.
  intros Hdate Hparse Haware Hfault.
  assert (parsed_published_at w article = Some d) as Hp.
  { unfold parsed_published_at. rewrite Hdate.
    rewrite strftime_truthy.
    by rewrite Hparse. }
  rewrite save_article_eq, Hp, Haware.
  unfold update_or_create, write_row. rewrite Hfault.
  destruct (t !! normalized_url w article) as [old|]; cbn; eauto.
Qed.

Lemma save_article_with_date_witness :
  ∃ obj,
    save_article (serving [] []) ∅ candidate_dated
    = Ok ({["https://example.com/a" := obj]}, obj, true)
    ∧ published_at obj = Some {| year := 2024; month := 3; day := 1;
                                 hour := 10; minute := 0; second := 0 |}.
Proof.
  exact (save_article_with_date (serving [] []) ∅ candidate_dated
           {| year := 2024; month := 3; day := 1; hour := 10; minute := 0; second := 0 |}
           _ eq_refl eq_refl eq_refl eq_refl).
Defined.

(** ** The store under [save_article] *)

Section upsert_facts.
Variable w : World.

Lemma Article_eta (r : Article) :
  r = {| title := title r; body := body r; plain_body := plain_body r;
         published_at := published_at r; url := url r |}.
Proof. by destruct r. Qed.

(** Writing the same values under the same URL again, with the
    database at hand, changes nothing. *)
Lemma update_or_create_again (w' : World) t u d t1 obj created :
  update_or_create w t u d = Ok (t1, obj, created) →
  db_write_fault w' u = None →
  update_or_create w' t1 u d = Ok (t1, obj, false).
Proof.
  intros H Hfault. pose proof (update_or_create_Ok w _ _ _ _ _ _ H)
    as (-> & Hu & Ht & Hb & Hp & _ & [x Hx] & Hdate).
  unfold update_or_create. rewrite Hfault, lookup_insert_eq.
  assert ({| title := d_title d; body := d_body d; plain_body := d_plain_body d;
             published_at := match d_published_at d with
                             | Some y => Some y
                             | None => published_at obj
                             end;
             url := u |} = obj) as ->.
  { rewrite (Article_eta obj), Ht, Hb, Hp, Hu. cbn. f_equal.
    rewrite Hdate. by destruct (d_published_at d). }
  unfold write_row. rewrite Hx, Hu. cbn. by rewrite insert_insert_eq.
Qed.

End upsert_facts.

(** X8: a call of [save_article] that returns has written one row and
    nothing else: the store holds the object under its URL, every other
    URL has what it had, the row is new exactly when the store did not
    hold the URL, and the store has one row more in that case and as
    many as before otherwise. *)
Theorem save_article_frame (w : World) (t t' : Table) (article : ArticleDict)
    (obj : Article) (created : bool) :
  save_article w t article = Ok (t', obj, created) →
  t' !! url obj = Some obj
  ∧ (∀ k, k ≠ url obj → t' !! k = t !! k)
  ∧ (created = true ↔ t !! url obj = None)
  ∧ dom t' = dom t ∪ {[url obj]}
  ∧ size t' = if created then S (size t) else size t.
Proof.
  intros (-> & Hu & _ & _ & _ & -> & _)%save_article_Ok. rewrite Hu.
  set (u := normalized_url w article).
  split; [by rewrite lookup_insert_eq|].
  split; [intros k Hk; by rewrite lookup_insert_ne|].
  split; [by rewrite bool_decide_eq_true|].
  split; [by rewrite dom_insert_L, (comm_L (∪))|].
  case_bool_decide as Hnew.
  - by apply map_size_insert_None.
  - apply map_size_insert_Some. by apply not_eq_None_Some.
Qed.

Lemma save_article_frame_witness :
  ({["https://example.com/a" := record_not_found]} : Table) !! "https://example.com/a"
  = Some record_not_found
  ∧ size ({["https://example.com/a" := record_not_found]} : Table) = 1%nat.
Proof.
  assert (save_article (serving [] []) ∅ candidate_dated
          = Ok ({["https://example.com/a" := record_not_found]}, record_not_found, true))
    as Hsave by (vm_compute; reflexivity).
  destruct (save_article_frame (serving [] []) ∅ _ candidate_dated _ _ Hsave)
    as (Hlookup & _ & _ & _ & Hsize).
  split; [exact Hlookup|exact Hsize].
Defined.

(** X9: saving the same candidate a second time, with the same date
    libraries and no fault of the database, is an update in place that
    changes nothing: the same object, the same store, and [created] is
    false.  (The candidate has a URL; without one each call makes a key
    of its own.) *)
Theorem save_article_again (w w' : World) (t t1 : Table) (article : ArticleDict)
    (u : string) (obj : Article) (created : bool) :
  a_url article = Some u → u ≠ "" →
  (∀ s, strptime w' s = strptime w s) →
  (∀ d, make_aware w' d = make_aware w d) →
  db_write_fault w' u = None →
  save_article w t article = Ok (t1, obj, created) →
  save_article w' t1 article = Ok (t1, obj, false).
Proof.
  intros Hurl Hne Hstrptime Haware Hfault. rewrite !save_article_eq.
  rewrite (normalized_url_Some w _ _ Hurl Hne), (normalized_url_Some w' _ _ Hurl Hne).
  assert (parsed_published_at w' article = parsed_published_at w article) as ->.
  { unfold parsed_published_at. destruct (a_published_at article); [done| |done].
    by rewrite Hstrptime. }
  destruct (parsed_published_at w article) as [d|].
  - rewrite Haware. destruct (make_aware w d); [|done].
    intros H. by apply (update_or_create_again w w' _ _ _ _ _ _ H).
  - intros H. by apply (update_or_create_again w w' _ _ _ _ _ _ H).
Qed.

Lemma save_article_again_witness :
  save_article (serving [] doc_article) {["https://example.com/a" := record_not_found]}
    candidate_dated
  = Ok ({["https://example.com/a" := record_not_found]}, record_not_found, false).
Proof.
  apply (save_article_again (serving [] []) (serving [] doc_article) ∅ _ candidate_dated
           "https://example.com/a" record_not_found true);
    [reflexivity | discriminate | reflexivity | reflexivity | reflexivity
    | vm_compute; reflexivity].
Defined.

(** ** The turns of the loop *)

Section turn_facts.
Variable w : World.

Lemma calls_app (a b : list event) : calls (a ++ b) = calls a ++ calls b.
Proof. apply List.filter_app. Qed.

Lemma trace_emit e st : trace (emit e st) = trace st ++ [e].
Proof. done. Qed.

(** The body of the last [try]: the browser is called, then
    [save_article] if the page could be read. *)
Lemma scrape_turn idx link st :
  ∃ evs,
    trace (scrape w idx link st).1 = trace st ++ evs
    ∧ calls evs `prefix_of` [CallDriverGet link; CallSaveArticle link]
    ∧ calls evs ≠ []
    ∧ turn_written w idx link (db st) (db (scrape w idx link st).1)
    ∧ news_ok (db st) (db (scrape w idx link st).1) evs.
Proof.
  unfold scrape, turn_written.
  destruct (render w idx link) as [doc|e] eqn:Er; cbn [fst].
  2:{ exists [CallDriverGet link]. split; [done|]. split; [by eexists|].
      split; [done|]. split; [by left|]. intros u. cbn. split; [lia|lia]. }
  destruct (extract w doc link) as [article|e] eqn:Ee; cbn [fst].
  2:{ exists [CallDriverGet link]. split; [done|]. split; [by eexists|].
      split; [done|]. split; [by left|]. intros u. cbn. split; [lia|lia]. }
  destruct (save_article w _ article) as [[[t' obj] created]|e] eqn:Es; cbn [fst].
  - exists [CallDriverGet link; CallSaveArticle link;
            if created then LogSaved (title obj) (url obj)
            else LogUpdated (title obj) (url obj)].
    split; [cbn; by rewrite <- !app_assoc|].
    split; [exists []; by destruct created|].
    split; [by destruct created|].
    split.
    { right. exists doc, article, obj, created. split; [done|]. split; [done|]. exact Es. }
    change (db (emit (CallSaveArticle link) (emit (CallDriverGet link) st)))
      with (db st) in Es.
    destruct (save_article_Ok _ _ _ _ _ _ Es) as (Ht' & Hu & _ & _ & _ & Hc & _).
    intros u. unfold count_new. destruct created; cbn; [|split; lia].
    destruct (String.eqb_spec (url obj) u) as [<-|Hne]; cbn; [|split; lia].
    split; [lia|]. intros _. symmetry in Hc. apply bool_decide_eq_true in Hc.
    rewrite Hu. split; [done|]. rewrite Ht', lookup_insert_eq. eauto.
  - exists [CallDriverGet link; CallSaveArticle link].
    split; [cbn; by rewrite <- !app_assoc|].
    split; [by exists []|]. split; [done|]. split; [by left|].
    intros u. cbn. split; lia.
Qed.

Lemma count_new_app (u : string) (a b : list event) :
  count_new u (a ++ b) = (count_new u a + count_new u b)%nat.
Proof. unfold count_new. by rewrite List.filter_app, length_app. Qed.

Lemma news_ok_none (t t' : Table) (evs : list event) :
  (∀ u, count_new u evs = 0%nat) → news_ok t t' evs.
Proof. intros H u. rewrite H. split; lia. Qed.

(** Events that log nothing as new, before and after, change nothing. *)
Lemma news_ok_wrap (t t' : Table) (pre evs post : list event) :
  (∀ u, count_new u pre = 0%nat) → (∀ u, count_new u post = 0%nat) →
  news_ok t t' evs → news_ok t t' (pre ++ evs ++ post).
Proof.
  intros Hpre Hpost H u. rewrite !count_new_app, Hpre, Hpost.
  replace (0 + (count_new u evs + 0))%nat with (count_new u evs) by lia. apply H.
Qed.

(** A turn that stops before the browser: the five facts of a turn for
    an explicit list of events. *)
Ltac turn_leaf :=
  split; [cbn; by rewrite <- ?app_assoc|];
  split; [by eexists|];
  split; [by left|];
  split; [first [done | by split; [|left] | by split; [|right]]|];
  by apply news_ok_none.

Lemma fetch_and_save_turn total idx link st :
  ∃ evs,
    trace (fetch_and_save w total idx link st).1 = trace st ++ evs
    ∧ calls evs `prefix_of` steps link
    ∧ turn_written w idx link (db st) (db (fetch_and_save w total idx link st).1)
    ∧ turn_raised w idx link (fetch_and_save w total idx link st).2
    ∧ news_ok (db st) (db (fetch_and_save w total idx link st).1) evs.
Proof.
  unfold fetch_and_save, validate_and_probe.
  destruct (urlparse w link) as [[scheme netloc]|e] eqn:Ep.
  2:{ destruct (is_RequestException e) eqn:Ee; cbn.
      - exists [LogRequestError link e]. turn_leaf.
      - exists []. rewrite app_nil_r. turn_leaf. }
  destruct (negb _).
  { exists [LogInvalidUrl link]. turn_leaf. }
  destruct (requests_get w idx link) as [status|e] eqn:Eg.
  2:{ destruct (is_RequestException e) eqn:Ee; cbn.
      - exists [CallRequestsGet link; LogRequestError link e]. turn_leaf.
      - exists [CallRequestsGet link]. turn_leaf. }
  destruct (is_bad_status status).
  { exists [CallRequestsGet link; LogBadStatus status link]. turn_leaf. }
  match goal with |- context [scrape w idx link ?s] => set (st1 := s) end.
  destruct (scrape_turn idx link st1) as (evs & Htrace & [k Hk] & Hne & Hw & Hnews).
  change (db st1) with (db st) in Hw, Hnews.
  set (pre := [CallRequestsGet link; LogScraping idx total link (skipped_cnt st)]).
  assert (calls (pre ++ evs) `prefix_of` steps link) as Hpre.
  { exists k. change (steps link = CallRequestsGet link :: (calls evs ++ k)).
    by rewrite <- Hk. }
  destruct (scrape w idx link st1) as [st2 [u|e]]; cbn [fst snd] in *.
  - exists (pre ++ evs).
    split; [rewrite Htrace; cbn; by rewrite <- !app_assoc|].
    split; [done|]. split; [done|]. split; [done|].
    rewrite <- (app_nil_r evs). by apply news_ok_wrap.
  - exists (pre ++ evs ++ [LogFailed link e]).
    split; [rewrite trace_emit, Htrace; cbn; by rewrite <- !app_assoc|].
    split; [by rewrite app_assoc, calls_app, app_nil_r|].
    split; [done|]. split; [done|]. by apply news_ok_wrap.
Qed.

(** One turn of the loop: the events it adds, the calls among them,
    what it writes, what it raises and what it logs as new. *)
Lemma iteration_turn total idx link st :
  ∃ evs,
    trace (iteration w total idx link st).1 = trace st ++ evs
    ∧ calls evs `prefix_of` steps (canonical w link)
    ∧ turn_written w idx (canonical w link) (db st) (db (iteration w total idx link st).1)
    ∧ turn_raised w idx (canonical w link) (iteration w total idx link st).2
    ∧ news_ok (db st) (db (iteration w total idx link st).1) evs.
Proof.
  unfold iteration. set (l := canonical w link).
  destruct (db_read_fault w idx) as [e|].
  - destruct (fetch_and_save_turn total idx l (emit (LogDbCheckFailed e) st))
      as (evs & Htrace & Hcalls & Hw & Hr & Hnews).
    exists ([LogDbCheckFailed e] ++ evs).
    split; [rewrite Htrace; cbn; by rewrite <- app_assoc|].
    split; [done|]. split; [done|]. split; [done|].
    rewrite <- (app_nil_r evs). by apply news_ok_wrap.
  - destruct (exists_url (db st) l).
    + exists [LogSkipSaved l]. turn_leaf.
    + apply fetch_and_save_turn.
Qed.

(** The loop over the links: no exception but the ones of [turn_raised]
    leaves it, and the calls follow the links. *)
Lemma loop_turns total idx links st :
  ∃ evs,
    trace (loop w total idx links st).1 = trace st ++ evs
    ∧ calls_follow w links (calls evs)
    ∧ ∀ e, (loop w total idx links st).2 = Some e →
        ∃ i link, link ∈ links ∧ turn_raised w i (canonical w link) (Some e).
Proof.
  revert idx st. induction links as [|link rest IH]; intros idx st.
  { exists []. by rewrite app_nil_r. }
  cbn [loop].
  destruct (iteration_turn total idx link st) as (evs1 & Ht1 & Hc1 & _ & Hr1 & _).
  destruct (iteration w total idx link st) as [st1 [e|]]; cbn [fst snd] in *.
  - exists evs1. split; [done|]. split.
    + exists (calls evs1), []. rewrite app_nil_r. split; [done|]. split; [done|].
      clear. induction rest as [|l rest IH]; [done|].
      exists [], []. split; [done|]. split; [by eexists|done].
    + intros e' [= <-]. exists idx, link. split; [apply list_elem_of_here|done].
  - destruct (IH (S idx) st1) as (evs2 & Ht2 & Hc2 & Hr2).
    exists (evs1 ++ evs2). split; [by rewrite Ht2, Ht1, app_assoc|]. split.
    + exists (calls evs1), (calls evs2). by rewrite calls_app.
    + intros e He. destruct (Hr2 e He) as (i & l & Hin & Hraised).
      exists i, l. split; [by apply list_elem_of_further|done].
Qed.

End turn_facts.

Section run_facts.
Variable w : World.

Lemma calls_quit_events : calls (quit_events w) = [CallDriverQuit].
Proof. unfold quit_events. by destruct (driver_quit w). Qed.

Lemma prefix_steps_no_quit (link : string) (c : list event) :
  c `prefix_of` steps link → CallDriverQuit ∉ c.
Proof.
  intros [k Hk] Hin. assert (CallDriverQuit ∈ steps link) as Hs.
  { rewrite Hk. apply elem_of_app. by left. }
  unfold steps in Hs. repeat (apply elem_of_cons in Hs as [?|Hs]; [done|]).
  by apply elem_of_nil in Hs.
Qed.

Lemma calls_follow_no_quit (links : list string) (cs : list event) :
  calls_follow w links cs → CallDriverQuit ∉ cs.
Proof.
  revert cs. induction links as [|link rest IH]; intros cs; cbn.
  - intros ->. apply not_elem_of_nil.
  - intros (c1 & c2 & -> & Hp & Hf). apply not_elem_of_app. split.
    + by apply (prefix_steps_no_quit (canonical w link)).
    + by apply IH.
Qed.

(** What a turn writes, seen from the store. *)
Lemma turn_written_frame idx link (t t' : Table) :
  turn_written w idx link t t' →
  (∀ k r, t !! k = Some r → is_Some (t' !! k))
  ∧ (∀ k r, t' !! k = Some r → t !! k = Some r ∨ row_ok k r)
  ∧ (∀ k, k ≠ link → k ≠ "not-found-" +:+ uuid4 w → t' !! k = t !! k).
Proof.
  intros [->|(doc & article & obj & created & _ & Hextract & Hsave)].
  { split; [eauto|]. split; [auto|done]. }
  destruct (extract_Ok w _ _ _ Hextract) as [Hurl Htag].
  destruct (save_article_Ok _ _ _ _ _ _ Hsave) as (-> & Hu & Ht & Hb & Hp & _ & Hdate).
  pose proof (normalized_title_cases article) as [Ht1 _].
  pose proof (normalized_body_cases article) as Hcases.
  destruct (normalized_body article) as [body_html plain].
  destruct Hcases as (_ & _ & Hp1 & Hb1). cbn [fst snd] in *.
  set (u := normalized_url w article) in *.
  split; [|split].
  - intros k r Hk. destruct (decide (k = u)) as [->|Hne].
    + rewrite lookup_insert_eq. eauto.
    + rewrite lookup_insert_ne by done. eauto.
  - intros k r. destruct (decide (k = u)) as [->|Hne].
    + rewrite lookup_insert_eq. intros [= <-]. right.
      unfold row_ok. rewrite Ht, Hb, Hp. auto.
    + rewrite lookup_insert_ne by done. auto.
  - intros k Hk1 Hk2. apply lookup_insert_ne.
    destruct (normalized_url_cases w article) as [_ [Hcase|Hcase]]; fold u in Hcase.
    + rewrite Hurl in Hcase. by intros <-; simplify_eq.
    + by rewrite Hcase.
Qed.

Lemma loop_frame total idx links st :
  let t := db st in
  let t' := db (loop w total idx links st).1 in
  (∀ k r, t !! k = Some r → is_Some (t' !! k))
  ∧ (∀ k r, t' !! k = Some r → t !! k = Some r ∨ row_ok k r)
  ∧ (∀ k, (∀ link, link ∈ links → canonical w link ≠ k) →
          k ≠ "not-found-" +:+ uuid4 w → t' !! k = t !! k).
Proof.
  revert idx st. induction links as [|link rest IH]; intros idx st; cbn zeta.
  { cbn. split; [eauto|]. split; [auto|done]. }
  cbn [loop].
  destruct (iteration_turn w total idx link st) as (_ & _ & _ & Hw & _ & _).
  apply turn_written_frame in Hw as (Hkeep1 & Hrow1 & Hframe1).
  destruct (iteration w total idx link st) as [st1 [e|]]; cbn [fst] in *.
  - split; [done|]. split; [done|]. intros k Hk Hnf. apply Hframe1; [|done].
    intros Heq. by apply (Hk link); [apply list_elem_of_here|].
  - destruct (IH (S idx) st1) as (Hkeep2 & Hrow2 & Hframe2). split; [|split].
    + intros k r Hk. destruct (Hkeep1 k r Hk) as [r1 Hr1]. eauto.
    + intros k r Hk. destruct (Hrow2 k r Hk) as [Hold|Hok]; [auto|by right].
    + intros k Hk Hnf. rewrite Hframe2; [apply Hframe1|..]; [|done| |done].
      * intros Heq. by apply (Hk link); [apply list_elem_of_here|].
      * intros l Hl. by apply Hk, list_elem_of_further.
Qed.

End run_facts.

(** X10: the calls of a run come in the order of the links: for each
    link the probe, then the render, then [save_article], each on the
    canonical link and each at most once, a turn stopping at any of
    them; [driver.quit()] is called exactly once, after all of them,
    whatever the loop did.  When the browser cannot be built nothing is
    called and the store is as it was. *)
Theorem run_calls_in_order (w : World) (t : Table) :
  match webdriver_builder w with
  | Raise e => scraper_run w t = (started t, Some e)
  | Ok _ =>
      ∃ cs, calls (trace (scraper_run w t).1) = (cs ++ [CallDriverQuit])
            ∧ (CallDriverQuit ∉ cs)
            ∧ match read_links w with
              | Ok links => calls_follow w links cs
              | Raise _ => cs = []
              end
  end.
Proof.
  rewrite scraper_run_eq. destruct (webdriver_builder w); [|done].
  cbn [fst trace]. destruct (read_links w) as [links|e].
  - destruct (loop_turns w (length links) 1 links (started t)) as (evs & -> & Hf & _).
    exists (calls evs). rewrite !calls_app, calls_quit_events, <- app_assoc.
    split; [done|]. split; [|done]. by apply (calls_follow_no_quit w links).
  - exists []. rewrite calls_app, calls_quit_events. split; [done|].
    split; [apply not_elem_of_nil|done].
Qed.

Section entries_facts.
Variable w : World.

(** On entries that are strings the loop is the loop over the links. *)
Lemma loop_entries_strings total idx links st :
  loop_entries w total idx (EntryStr <$> links) st = loop w total idx links st.
Proof.
  revert idx st. induction links as [|link rest IH]; intros idx st; [done|].
  cbn [fmap list_fmap loop_entries loop].
  destruct (iteration w total idx link st) as [st1 [e|]]; [done|]. apply IH.
Qed.

Lemma scraper_run_entries_read (t : Table) :
  scraper_run_entries w (entries_read w) t = scraper_run w t.
Proof.
  unfold scraper_run_entries, scraper_run, entries_read.
  destruct (webdriver_builder w); [|done].
  destruct (read_links w) as [links|e]; [|done].
  by rewrite loop_entries_strings, length_fmap.
Qed.

(** The exception that leaves the loop was raised on an entry that is
    no string, or in the turn of a link as [turn_raised] says. *)
Lemma loop_entries_raised total idx entries st e :
  (loop_entries w total idx entries st).2 = Some e →
  (e = AttributeError ∧ EntryOther ∈ entries)
  ∨ ∃ i link, EntryStr link ∈ entries ∧ turn_raised w i (canonical w link) (Some e).
Proof.
  revert idx st. induction entries as [|[link|] rest IH]; intros idx st; [done|..].
  - cbn [loop_entries].
    destruct (iteration_turn w total idx link st) as (_ & _ & _ & _ & Hr & _).
    destruct (iteration w total idx link st) as [st1 [e'|]]; cbn [fst snd] in *.
    + intros [= ->]. right. exists idx, link. split; [apply list_elem_of_here|done].
    + intros [[-> Hin]|(i & l & Hin & Hraised)]%IH.
      * left. split; [done|by apply list_elem_of_further].
      * right. exists i, l. split; [by apply list_elem_of_further|done].
  - intros [= <-]. left. split; [done|apply list_elem_of_here].
Qed.

End entries_facts.

(** A list whose second entry is a number: the first link is fetched
    and saved, the second entry ends the run with [AttributeError],
    after which the browser is closed. *)
Example run_entry_not_a_string :
  let r := scraper_run_entries (serving [] doc_article)
             (Ok [EntryStr "https://example.com/a"; EntryOther]) ∅ in
  r.2 = Some AttributeError
  ∧ db r.1 = {["https://example.com/a" := record_article]}
  ∧ trace r.1
    = [ LogInitializing;
        CallRequestsGet "https://example.com/a";
        LogScraping 1 2 "https://example.com/a" 0;
        CallDriverGet "https://example.com/a";
        CallSaveArticle "https://example.com/a";
        LogSaved "Headline" "https://example.com/a";
        CallDriverQuit ].
Proof. by vm_compute. Qed.

(** X11: [scraper_run] is [scraper_run_entries] on a file whose entries
    are strings; and whatever the entries of the file are, an exception
    (of a subclass of [Exception], as those of [exn] are) ends a run
    only when it was raised by [webdriver_builder], by the
    reading of the file, by [link.endswith] on an entry that is no
    string ([AttributeError]), or, for an entry that is a string, by
    [urlparse] or [requests.get] without being a [RequestException];
    nothing that the check of the store, the browser, the extractors or
    [save_article] raise ends it. *)
Theorem run_exception_origin (w : World) (t : Table) :
  scraper_run w t = scraper_run_entries w (entries_read w) t
  ∧ ∀ (file : result (list entry)) (e : exn),
      (scraper_run_entries w file t).2 = Some e →
      webdriver_builder w = Raise e
      ∨ file = Raise e
      ∨ ∃ entries,
          file = Ok entries
          ∧ ((e = AttributeError ∧ EntryOther ∈ entries)
             ∨ ∃ i link,
                 EntryStr link ∈ entries
                 ∧ is_RequestException e = false
                 ∧ (urlparse w (canonical w link) = Raise e
                    ∨ requests_get w i (canonical w link) = Raise e)).
Proof.
  split; [by rewrite scraper_run_entries_read|].
  intros file e. unfold scraper_run_entries.
  destruct (webdriver_builder w) as [[]|e0].
  2:{ intros [= ->]. by left. }
  destruct file as [entries|e0].
  2:{ destruct (driver_quit w); intros [= ->]; right; by left. }
  pose proof (loop_entries_raised w (length entries) 1 entries (started t) e) as Hr.
  fold (started t).
  destruct (loop_entries w (length entries) 1 entries (started t)) as [st err].
  cbn [snd] in Hr.
  assert (err = Some e → ∃ entries0, Ok entries = Ok entries0
            ∧ ((e = AttributeError ∧ EntryOther ∈ entries0)
               ∨ ∃ i link, EntryStr link ∈ entries0
                   ∧ is_RequestException e = false
                   ∧ (urlparse w (canonical w link) = Raise e
                      ∨ requests_get w i (canonical w link) = Raise e))) as Hgoal.
  { intros He. exists entries. split; [done|].
    destruct (Hr He) as [?|(i & link & Hin & Hne & Horigin)]; [by left|].
    right. exists i, link. auto. }
  destruct (driver_quit w); cbn [snd]; intros He; right; right; auto.
Qed.

Lemma run_exception_origin_witness :
  ∃ entries,
    Ok [EntryStr "https://example.com/a"; EntryOther] = Ok entries
    ∧ ((AttributeError = AttributeError ∧ EntryOther ∈ entries)
       ∨ ∃ i link,
           EntryStr link ∈ entries
           ∧ is_RequestException AttributeError = false
           ∧ (urlparse (serving [] doc_article) (canonical (serving [] doc_article) link)
              = Raise AttributeError
              ∨ requests_get (serving [] doc_article) i
                  (canonical (serving [] doc_article) link) = Raise AttributeError)).
Proof.
  assert ((scraper_run_entries (serving [] doc_article)
             (Ok [EntryStr "https://example.com/a"; EntryOther]) ∅).2
          = Some AttributeError) as Hrun by (vm_compute; reflexivity).
  destruct (proj2 (run_exception_origin (serving [] doc_article) ∅) _ _ Hrun)
    as [Hbuild|[Hread|Hentry]]; [discriminate Hbuild|discriminate Hread|exact Hentry].
Defined.

(** X12: a run never deletes a row; every row of the store after the
    run is a row it had before or a row with its key as URL, non-empty
    text fields and a date; and a key that is neither the canonical
    form of a link of the list nor the [not-found-] placeholder has
    what it had. *)
Theorem run_store_frame (w : World) (t : Table) :
  let t' := db (scraper_run w t).1 in
  (∀ k r, t !! k = Some r → is_Some (t' !! k))
  ∧ (∀ k r, t' !! k = Some r → t !! k = Some r ∨ row_ok k r)
  ∧ (∀ k, match read_links w with
          | Ok links => ∀ link, link ∈ links → canonical w link ≠ k
          | Raise _ => True
          end →
          k ≠ "not-found-" +:+ uuid4 w → t' !! k = t !! k).
Proof.
  cbn zeta. rewrite scraper_run_eq.
  destruct (webdriver_builder w); cbn [fst db].
  2:{ split; [eauto|]. split; [auto|done]. }
  destruct (read_links w) as [links|e]; cbn [fst db].
  2:{ split; [eauto|]. split; [auto|done]. }
  apply (loop_frame w (length links) 1 links (started t)).
Qed.

Section news_facts.
Variable w : World.

(** What a loop logs as new. *)
Lemma loop_news total idx links st :
  ∃ evs,
    trace (loop w total idx links st).1 = trace st ++ evs
    ∧ news_ok (db st) (db (loop w total idx links st).1) evs.
Proof.
  revert idx st. induction links as [|link rest IH]; intros idx st.
  { exists []. rewrite app_nil_r. split; [done|]. by apply news_ok_none. }
  pose proof (loop_frame w total (S idx) rest) as Hrest.
  cbn [loop].
  destruct (iteration_turn w total idx link st) as (evs1 & Ht1 & _ & Hw & _ & Hn1).
  apply turn_written_frame in Hw as (Hkeep1 & _ & _).
  destruct (iteration w total idx link st) as [st1 [e|]]; cbn [fst] in *; [by exists evs1|].
  destruct (IH (S idx) st1) as (evs2 & Ht2 & Hn2).
  destruct (Hrest st1) as (Hkeep2 & _ & _). cbn zeta in Hkeep2.
  exists (evs1 ++ evs2). split; [by rewrite Ht2, Ht1, app_assoc|].
  intros u. rewrite count_new_app.
  destruct (Hn1 u) as [Hle1 Hnew1]. destruct (Hn2 u) as [Hle2 Hnew2].
  destruct (decide (0 < count_new u evs1)%nat) as [H1|H1].
  - destruct (Hnew1 H1) as [Hnone [r1 Hr1]].
    assert (count_new u evs2 = 0%nat) as ->.
    { destruct (decide (0 < count_new u evs2)%nat) as [H2|H2]; [|lia].
      destruct (Hnew2 H2) as [Hcontra _]. congruence. }
    split; [lia|]. intros _. split; [done|]. by apply (Hkeep2 u r1).
  - replace (count_new u evs1) with 0%nat by lia. cbn. split; [done|].
    intros H2. destruct (Hnew2 H2) as [Hnone Hsome]. split; [|done].
    destruct (db st !! u) as [r|] eqn:Er; [|done].
    destruct (Hkeep1 u r Er) as [r1 Hr1]. congruence.
Qed.

End news_facts.

(** X15: in one run a URL is logged as a new article at most once, and
    only when the store did not hold it before the run; the store holds
    it after the run. *)
Theorem created_at_most_once (w : World) (t : Table) (u : string) :
  (count_new u (trace (scraper_run w t).1) ≤ 1)%nat
  ∧ ((0 < count_new u (trace (scraper_run w t).1))%nat →
       t !! u = None ∧ is_Some (db (scraper_run w t).1 !! u)).
Proof.
  rewrite scraper_run_eq.
  assert (∀ evs, count_new u (trace (started t) ++ evs ++ quit_events w) = count_new u evs)
    as Hwrap.
  { intros evs. rewrite !count_new_app.
    assert (count_new u (quit_events w) = 0%nat) as ->
      by (unfold quit_events; by destruct (driver_quit w)).
    cbn. lia. }
  destruct (webdriver_builder w); cbn [fst snd db trace]; [|split; [cbn; lia|cbn; lia]].
  destruct (read_links w) as [links|e]; cbn [fst snd db trace].
  - destruct (loop_news w (length links) 1 links (started t)) as (evs & -> & Hnews).
    rewrite <- app_assoc, Hwrap. apply (Hnews u).
  - rewrite <- (app_nil_l (quit_events w)), Hwrap. cbn. split; lia.
Qed.

(** X13: a link that is no http(s) URL with a host is skipped without a
    request, and a link whose probe raises a [RequestException] is
    skipped without a render; the store is as it was and the loop goes
    on. *)
Theorem rejected_link_is_skipped (w : World) (total idx : nat) (link : string)
    (st : RunState) :
  db_read_fault w idx = None →
  db st !! canonical w link = None →
  (∀ parsed, urlparse w (canonical w link) = Ok parsed → valid_url parsed = false →
     iteration w total idx link st
     = (skip (emit (LogInvalidUrl (canonical w link)) st), None))
  ∧ (∀ parsed e, urlparse w (canonical w link) = Ok parsed → valid_url parsed = true →
       requests_get w idx (canonical w link) = Raise e →
       is_RequestException e = true →
       iteration w total idx link st
       = (skip (emit (LogRequestError (canonical w link) e)
                  (emit (CallRequestsGet (canonical w link)) st)), None)).
Proof.
  intros Hfault Hnew. rewrite (iteration_new w total idx link st Hfault Hnew).
  unfold fetch_and_save, validate_and_probe. split.
  - intros [scheme netloc] -> Hv. cbv [valid_url fst snd] in Hv. by rewrite Hv.
  - intros [scheme netloc] e -> Hv -> He. cbv [valid_url fst snd] in Hv.
    rewrite Hv. cbn -[skip emit is_RequestException]. by rewrite He.
Qed.

Lemma rejected_link_is_skipped_witness :
  iteration world_mixed 4 1 "ftp://example.com/x" (started ∅)
  = (skip (emit (LogInvalidUrl "ftp://example.com/x") (started ∅)), None).
Proof.
  exact (proj1 (rejected_link_is_skipped world_mixed 4 1 "ftp://example.com/x"
                  (started ∅) eq_refl eq_refl)
           ("ftp", "example.com") eq_refl eq_refl).
Defined.

(** A run over a list with an entry that is no URL, one without a
    scheme and one whose probe fails: the three are skipped and the
    fourth is saved. *)
Example run_mixed_list :
  let r := scraper_run world_mixed ∅ in
  r.2 = None
  ∧ db r.1 = {["https://example.com/a" := record_article]}
  ∧ trace r.1
    = [ LogInitializing;
        LogInvalidUrl "ftp://example.com/x";
        LogInvalidUrl "not a url";
        CallRequestsGet "https://down.example.com";
        LogRequestError "https://down.example.com" RequestException;
        CallRequestsGet "https://example.com/a";
        LogScraping 4 4 "https://example.com/a" 1;
        CallDriverGet "https://example.com/a";
        CallSaveArticle "https://example.com/a";
        LogSaved "Headline" "https://example.com/a";
        CallDriverQuit ].
Proof. by vm_compute. Qed.

(** X14: when the date parser is missing, or never raises, the
    extraction of a page never raises: there is a candidate, with the
    link as URL, the title that [title_finder] finds and the element
    that [body_finder] finds. *)
Theorem extract_never_raises (w : World) (doc : soup) (link : string) :
  dateparser_available w = false
  ∨ (∀ raw, ∃ found, dateparser_parse w raw = Ok found) →
  ∃ article,
    extract w doc link = Ok article
    ∧ a_url article = Some link
    ∧ a_title article = of_option (title_finder (Some doc))
    ∧ a_body article = match (body_finder (Some doc)).2 with
                       | Some tag => PTag tag
                       | None => PNone
                       end.
Proof.
  intros Hparser. unfold extract.
  destruct (body_finder (Some doc)) as [doc' body_] eqn:Eb. cbn [snd].
  assert (∃ found, published_at_finder w doc' = Ok found) as [found ->].
  { destruct Hparser as [Hmissing|Htotal].
    - rewrite published_at_finder_unavailable by done. eauto.
    - unfold published_at_finder. destruct doc' as [d|]; [|eauto].
      destruct (negb _); [eauto|].
      assert (∃ r, time_strategy w d = Ok r) as [r ->].
      { unfold time_strategy. destruct (Bs4.find _ d) as [time_tag|]; [|eauto].
        destruct (Py.truthy _); [|eauto].
        destruct (Htotal (Py.or_else (Bs4.get "datetime" time_tag)
                            (Bs4.get_text true time_tag))) as [f ->]. cbn. eauto. }
      cbn. destruct r; [eauto|]. destruct (author_strategy w d) as [[?|]|]; eauto. }
  cbn. eauto.
Qed.

Lemma extract_never_raises_witness :
  ∃ article,
    extract Reference.quiet doc_logo_h1 "https://example.com/a" = Ok article
    ∧ a_url article = Some "https://example.com/a"
    ∧ a_title article = PNone
    ∧ a_body article = PNone.
Proof.
  apply (extract_never_raises Reference.quiet doc_logo_h1 "https://example.com/a").
  right. intros raw. cbn. unfold Reference.parse_iso.
  destruct (Reference.fixed_fields raw 4 2 2 "-" "-" "T" ":" ":")
    as [[[[[[y mo] d] h] mi] x]|]; [|eauto].
  destruct (Reference.valid_datetime _); eauto.
Defined.

(** X16: the title is looked for on the page as the browser gave it,
    the date on the page as [body_finder] leaves it: the candidate has
    the title of the whole page and the date of the page without its ad
    containers, on which whatever element a search finds is free of ad
    containers.  So a heading inside an ad container becomes the title,
    and a date inside one is not found. *)
Theorem extract_order (w : World) (doc : soup) (link : string) (article : ArticleDict) :
  extract w doc link = Ok article →
  a_title article = of_option (title_finder (Some doc))
  ∧ published_at_finder w (Some (Bs4.decompose_all is_ad_div doc))
    = Ok match a_published_at article with
         | DStr s => Some s
         | _ => None
         end
  ∧ ∀ p n, Bs4.find p (Bs4.decompose_all is_ad_div doc) = Some n → ad_free n = true.
Proof.
  intros H. split; [|split].
  - revert H. unfold extract. cbn [body_finder].
    destruct (published_at_finder w _) as [[s|]|e]; [| |done]; by intros [= <-].
  - revert H. unfold extract. cbn [body_finder].
    destruct (published_at_finder w _) as [[s|]|e]; [| |done]; by intros [= <-].
  - intros p n [_ Hin]%find_Some.
    pose proof (ad_free_descendants_of _ (decompose_all_ad_free doc)) as Hfree.
    rewrite Forall_forall in Hfree. by apply Hfree.
Qed.

Lemma extract_order_witness :
  ∃ article,
    extract Reference.quiet doc_ad_heading "https://example.com/a" = Ok article
    ∧ a_title article = PStr "Sponsored"
    ∧ a_published_at article = DNone
    ∧ published_at_finder Reference.quiet (Some doc_ad_heading)
      = Ok (Some "01.03.2024 10:00:00").
Proof.
  eexists. split; [reflexivity|].
  split; [|split; reflexivity].
  exact (proj1 (extract_order Reference.quiet doc_ad_heading "https://example.com/a"
                  _ eq_refl)).
Defined.
